(** * dmsky.priors: prior functors and their factory

    A shallow embedding of [dmsky/priors.py].  Python values are a small
    inductive type over an abstract type of numbers, exceptions are data,
    fallible code lives in [result], and code that works on a mutable object
    (the configuration dictionary popped by the factory, the instance a
    method is called on) lives in a state-and-error monad over that object.
    numpy, scipy and [dmsky.utils] are not part of the module: they are the
    fields of a [library] record the whole development is parametrised by. *)

From Stdlib Require Import Ascii String List ZArith Reals Lra.
From stdpp Require Import base option strings gmap sorting.

Set Default Proof Using "Type".
Set Warnings "-register-all".
Open Scope string_scope.

(** ** Python values and exceptions *)

(** What a configuration dictionary or a YAML table can hold.  [num] stands
    for Python's numbers (int and float are not told apart); [PInf] is
    [float('inf')], kept apart so that [num] need not have an infinity. *)
Inductive pyval {num : Type} : Type :=
| PNone
| PBool (b : bool)
| PNum (n : num)
| PInf
| PStr (s : string)
| PList (l : list pyval).
Arguments pyval : clear implicits.

(** Why a call fails with [TypeError].

    [rejected_keyword among]: the call was given a keyword the signature
    refuses, one that names no parameter ("got an unexpected keyword
    argument") or that names [self] ("got multiple values for argument
    'self'").  The interpreter reports the first such key in the order of
    the dictionary, an order the map of the model does not keep: [among] is
    the set of the keys the report can be about.

    [not_callable cls]: an instance of [cls] was called, and [cls] defines
    no [__call__]. *)
Inductive binding_error : Type :=
| rejected_keyword (among : gset string)
| missing_arguments (ks : list string)
| not_callable (cls : string).

Inductive exn : Type :=
| KeyError (arg : string)
| TypeError (why : binding_error)
| NameError (name : string)
| NotImplementedError (msg : string)
| AttributeError (cls attr : string)
| LibraryError (cls msg : string).

Inductive result (A : Type) : Type :=
| Ok (a : A)
| Err (e : exn).
Arguments Ok {A} a.
Arguments Err {A} e.

#[global] Instance result_ret : MRet result := @Ok.
#[global] Instance result_bind : MBind result :=
  λ A B f r, match r with Ok a => f a | Err e => Err e end.
#[global] Instance result_fmap : FMap result :=
  λ A B f r, match r with Ok a => Ok (f a) | Err e => Err e end.

(** ** Computations on a mutable object *)

Definition M (S A : Type) : Type := S → S * result A.

#[global] Instance M_ret {S} : MRet (M S) := λ A a s, (s, Ok a).
#[global] Instance M_bind {S} : MBind (M S) :=
  λ A B f c s, match c s with
               | (s', Ok a) => f a s'
               | (s', Err e) => (s', Err e)
               end.

Definition get {S} : M S S := λ s, (s, Ok s).
Definition put {S} (s' : S) : M S unit := λ _, (s', Ok tt).
Definition lift {S A} (r : result A) : M S A := λ s, (s, r).
Definition raise {S A} (e : exn) : M S A := lift (Err e).

(** ** Dictionaries *)

Abbreviation dict num := (gmap string (pyval num)).

Section Dict.
Context {num : Type}.
Implicit Types (d : dict num) (k : string) (v : pyval num).

(** [d[k]] *)
Definition getitem d k : result (pyval num) :=
  match d !! k with
  | Some v => Ok v
  | None => Err (KeyError k)
  end.

(** [d.get(k, default)] *)
Definition dict_get d k (default : pyval num) : pyval num :=
  match d !! k with
  | Some v => v
  | None => default
  end.

(** [d.pop(k, default)]: the one operation that writes to the dictionary. *)
Definition dict_pop k (default : pyval num) : M (dict num) (pyval num) :=
  d ← get;
  _ ← put (delete k d);
  mret (dict_get d k default).

(** Calling [f] with the entries of [d] as keyword arguments, for a function
    whose parameters after [self] are [params]:
    every key must name one of [params] (so not [self] either), and every
    parameter must be given. *)
Definition bind_kwargs (params : list string) d : result (list (pyval num)) :=
  let extra := filter (λ k, k ∉ params) (dom d) in
  if decide (extra = ∅) then
    match filter (λ k, d !! k = None) params with
    | [] => Ok (omap (λ k, d !! k) params)
    | missing => Err (TypeError (missing_arguments missing))
    end
  else Err (TypeError (rejected_keyword extra)).

(** [v == s] for a string literal [s] *)
Definition str_eqb v (s : string) : bool :=
  match v with
  | PStr s' => bool_decide (s' = s)
  | _ => false
  end.
End Dict.

(** ** The libraries the module imports *)

Definition fn3 (num : Type) : Type :=
  pyval num → pyval num → pyval num → result (pyval num).

(** A callable of one argument, such as the object [interp1d] returns. *)
Definition fn1 (num : Type) : Type := pyval num → result (pyval num).

Record library {num : Type} : Type := {
  (* numbers *)
  num_of_Z : Z → num;
  num_ltb : num → num → bool;
  (* Python operators and builtins on values *)
  py_add : pyval num → pyval num → result (pyval num);
  py_sub : pyval num → pyval num → result (pyval num);
  py_mul : pyval num → pyval num → result (pyval num);
  py_max : pyval num → pyval num → result (pyval num);
  py_str : pyval num → string;
  py_index : pyval num → Z → result (pyval num);
  (* calling the object a global or builtin name is bound to *)
  call_name : ∀ Self : Type, string → Self → pyval num → pyval num →
              result (pyval num);
  (* numpy *)
  np_log : fn1 num;
  np_log10 : fn1 num;
  np_logspace : pyval num → pyval num → Z → result (pyval num);
  (* scipy.stats: [norm(loc, scale).pdf(x)] and [lognorm(s, scale).pdf(x)] *)
  stats_norm_pdf : fn3 num;
  stats_lognorm_pdf : fn3 num;
  (* scipy.interpolate: [interp1d(x, y, kind, bounds_error, fill_value)] *)
  interp1d : pyval num → pyval num → pyval num → bool → pyval num →
             result (fn1 num);
  (* dmsky.utils.stat_funcs; the last argument of [lgauss] and [lnlgauss]
     is the keyword [logpdf], [None] when the call leaves it out *)
  gauss : fn3 num;
  lngauss : fn3 num;
  lgauss : pyval num → pyval num → pyval num → option bool →
           result (pyval num);
  lnlgauss : pyval num → pyval num → pyval num → option bool →
             result (pyval num);
  (* dmsky.utils.tools *)
  yaml_load : pyval num → result (dict num);
}.
Arguments library : clear implicits.

(** ** The module's name space *)

(** The names bound at the top level of [priors.py]: those the import
    system sets, then those the module binds, in its order. *)
Definition module_globals : list string :=
  [ "__name__"; "__doc__"; "__package__"; "__loader__"; "__spec__";
    "__file__"; "__cached__"; "__builtins__";
    "absolute_import"; "division"; "print_function";
    "np"; "stats"; "interp1d"; "stat_funcs"; "tools";
    "PriorFunctor"; "FunctionPrior"; "GaussPrior"; "LGaussPrior";
    "LGaussLikePrior"; "LGaussLogPrior"; "LognormPrior"; "NormPrior";
    "FileFuncPrior"; "create_prior_functor"; "factory" ].

(** The functions and types of the interpreter's [builtins] module (its
    exception classes and constants are left out). *)
Definition builtins : list string :=
  [ "abs"; "all"; "any"; "ascii"; "bin"; "bool"; "breakpoint"; "bytearray";
    "bytes"; "callable"; "chr"; "classmethod"; "compile"; "complex";
    "delattr"; "dict"; "dir"; "divmod"; "enumerate"; "eval"; "exec";
    "filter"; "float"; "format"; "frozenset"; "getattr"; "globals";
    "hasattr"; "hash"; "help"; "hex"; "id"; "input"; "int"; "isinstance";
    "issubclass"; "iter"; "len"; "list"; "locals"; "map"; "max";
    "memoryview"; "min"; "next"; "object"; "oct"; "open"; "ord"; "pow";
    "print"; "property"; "range"; "repr"; "reversed"; "round"; "set";
    "setattr"; "slice"; "sorted"; "staticmethod"; "str"; "sum"; "super";
    "tuple"; "type"; "vars"; "zip" ].

(** Looking up a name that is not local to the function: module globals
    first, then builtins, else [NameError]. *)
Definition load_global (name : string) : result string :=
  if decide (name ∈ module_globals) then Ok name
  else if decide (name ∈ builtins) then Ok name
  else Err (NameError name).

(** ** The classes *)

Section Priors.
Context {num : Type} (L : library num).

Abbreviation value := (pyval num).

(** An instance is the attributes its constructor stored.  The subclasses
    of [FunctionPrior] add no attribute and override no method, so their
    instances are [FunctionPrior] instances.  Which of these classes an
    instance was made by ([type(self)]) is not recorded: no code of the
    module looks at it, and no statement below depends on it. *)
Inductive prior : Type :=
| PriorFunctor_obj (_funcname : value)
| FunctionPrior_obj (_funcname _mu _sigma : value)
    (_fn : fn3 num) (_lnfn : option (fn3 num))
| LognormPrior_obj (_funcname _mu _sigma : value)
| NormPrior_obj (_funcname _mu _sigma : value)
| FileFuncPrior_obj (_funcname _filename _mu _sigma _x _y _kind
    _fill_value : value) (_interpfunc : fn1 num).

Abbreviation method A := (M prior A).

(** *** Constructors *)

Definition PriorFunctor (funcname : value) : prior :=
  PriorFunctor_obj funcname.

Definition FunctionPrior (funcname mu sigma : value) (fn : fn3 num)
    (lnfn : option (fn3 num)) : prior :=
  FunctionPrior_obj funcname mu sigma fn lnfn.

Definition GaussPrior (mu sigma : value) : prior :=
  FunctionPrior (PStr "gauss") mu sigma (gauss L) (Some (lngauss L)).

Definition LGaussPrior (mu sigma : value) : prior :=
  FunctionPrior (PStr "lgauss") mu sigma
    (λ x y s, lgauss L x y s None) (Some (λ x y s, lnlgauss L x y s None)).

Definition LGaussLikePrior (mu sigma : value) : prior :=
  let fn x y s := lgauss L y x s None in
  let lnfn x y s := lnlgauss L y x s None in
  FunctionPrior (PStr "lgauss_like") mu sigma fn (Some lnfn).

Definition LGaussLogPrior (mu sigma : value) : prior :=
  let fn x y s := lgauss L x y s (Some true) in
  let lnfn x y s := lnlgauss L x y s (Some true) in
  FunctionPrior (PStr "lgauss_log") mu sigma fn (Some lnfn).

Definition LognormPrior (mu sigma : value) : prior :=
  LognormPrior_obj (PStr "lognorm") mu sigma.

Definition NormPrior (mu sigma : value) : prior :=
  NormPrior_obj (PStr "norm") mu sigma.

Definition FileFuncPrior (filename : value) : result prior :=
  d ← yaml_load L filename;
  mu ← getitem d "mean";
  sigma ← getitem d "sigma";
  x ← getitem d "x";
  y ← getitem d "y";
  let kind := dict_get d "kind" (PStr "linear") in
  let fill_value := dict_get d "fill_value" (PNum (num_of_Z L 0)) in
  interpfunc ← interp1d L x y kind false fill_value;
  mret (FileFuncPrior_obj (PStr "file") filename mu sigma x y kind
          fill_value interpfunc).

(** A class called with the entries of a dictionary as keyword arguments;
    [NormPrior] and [LognormPrior] both take [mu] and [sigma]. *)
Definition construct_kw (cls : value → value → prior) (d : dict num)
    : result prior :=
  args ← bind_kwargs ["mu"; "sigma"] d;
  match args with
  | [mu; sigma] => Ok (cls mu sigma)
  | _ => Err (TypeError (missing_arguments ["mu"; "sigma"]))
  end.

(** *** Methods defined once *)

Definition class_name (p : prior) : string :=
  match p with
  | PriorFunctor_obj _ => "PriorFunctor"
  | FunctionPrior_obj _ _ _ _ _ => "FunctionPrior"
  | LognormPrior_obj _ _ _ => "LognormPrior"
  | NormPrior_obj _ _ _ => "NormPrior"
  | FileFuncPrior_obj _ _ _ _ _ _ _ _ _ => "FileFuncPrior"
  end.

(** The property [funcname]. *)
Definition funcname : method value :=
  self ← get;
  mret (match self with
        | PriorFunctor_obj f
        | FunctionPrior_obj f _ _ _ _
        | LognormPrior_obj f _ _
        | NormPrior_obj f _ _
        | FileFuncPrior_obj f _ _ _ _ _ _ _ _ => f
        end).

Definition normalization_range : method (value * value) :=
  mret (PNum (num_of_Z L 0), PInf).

(** *** Methods the subclasses override *)

Definition mean : method value :=
  self ← get;
  match self with
  | PriorFunctor_obj _ => mret (PNum (num_of_Z L 1))
  | FunctionPrior_obj _ mu _ _ _
  | LognormPrior_obj _ mu _
  | NormPrior_obj _ mu _
  | FileFuncPrior_obj _ _ mu _ _ _ _ _ _ => mret mu
  end.

Definition sigma : method value :=
  self ← get;
  match self with
  | PriorFunctor_obj _ =>
      raise (NotImplementedError
               "prior_functor.sigma must be implemented by sub-class")
  | FunctionPrior_obj _ _ sigma _ _
  | LognormPrior_obj _ _ sigma
  | NormPrior_obj _ _ sigma
  | FileFuncPrior_obj _ _ _ sigma _ _ _ _ _ => mret sigma
  end.

(** The method call [self.__call__(x)], as [log_value] writes it.  Every
    class but [PriorFunctor] defines [__call__]; on a bare [PriorFunctor]
    the attribute is not found. *)
Definition __call__ (x : value) : method value :=
  self ← get;
  match self with
  | PriorFunctor_obj _ =>
      raise (AttributeError (class_name self) "__call__")
  | FunctionPrior_obj _ mu sigma fn _ => lift (fn x mu sigma)
  | LognormPrior_obj _ mu sigma => lift (stats_lognorm_pdf L sigma mu x)
  | NormPrior_obj _ mu sigma => lift (stats_norm_pdf L mu sigma x)
  | FileFuncPrior_obj _ _ _ _ _ _ _ _ interpfunc => lift (interpfunc x)
  end.

(** The call [self(x)]: the class's [__call__], and a [TypeError] where the
    class has none. *)
Definition call_instance (x : value) : method value :=
  self ← get;
  match self with
  | PriorFunctor_obj _ => raise (TypeError (not_callable (class_name self)))
  | _ => __call__ x
  end.

(** [PriorFunctor.log_value], inherited by every class but
    [FunctionPrior]. *)
Definition PriorFunctor_log_value (x : value) : method value :=
  v ← __call__ x;
  lift (np_log L v).

Definition FunctionPrior_log_value (x : value) (mu sigma : value)
    (fn : fn3 num) (lnfn : option (fn3 num)) : method value :=
  match lnfn with
  | None => v ← lift (fn x mu sigma); lift (np_log L v)
  | Some lnfn => lift (lnfn x mu sigma)
  end.

Definition log_value (x : value) : method value :=
  self ← get;
  match self with
  | FunctionPrior_obj _ mu sigma fn lnfn =>
      FunctionPrior_log_value x mu sigma fn lnfn
  | _ => PriorFunctor_log_value x
  end.

Definition FunctionPrior_normalization : method value :=
  norm_r ← normalization_range;
  quad ← lift (load_global "quad");
  self ← get;
  r ← lift (call_name L prior quad self norm_r.1 norm_r.2);
  lift (py_index L r 0).

Definition PriorFunctor_normalization : method value :=
  mret (PNum (num_of_Z L 1)).

Definition normalization : method value :=
  self ← get;
  match self with
  | FunctionPrior_obj _ _ _ _ _ => FunctionPrior_normalization
  | _ => PriorFunctor_normalization
  end.

Definition marginalization_bins : method value :=
  m ← mean;
  log_mean ← lift (np_log10 L m);
  lo ← lift (py_add L (PNum (num_of_Z L (-1))) log_mean);
  hi ← lift (py_add L (PNum (num_of_Z L 1)) log_mean);
  lift (np_logspace L lo hi 1001).

Definition profile_bins : method value :=
  m ← mean;
  log_mean ← lift (np_log10 L m);
  s ← sigma;
  w ← lift (py_mul L (PNum (num_of_Z L 5)) s);
  log_half_width ← lift (py_max L w (PNum (num_of_Z L 3)));
  lo ← lift (py_sub L log_mean log_half_width);
  hi ← lift (py_add L log_mean log_half_width);
  lift (np_logspace L lo hi 101).

(** *** The factory *)

(** ["%s" % v] *)
Definition percent_s (v : value) : string :=
  match v with
  | PStr s => s
  | _ => py_str L v
  end.

Definition create_prior_functor : M (dict num) prior :=
  functype ← dict_pop "functype" (PStr "lgauss_like");
  d ← get;
  if str_eqb functype "norm" then
    lift (construct_kw NormPrior d)
  else if str_eqb functype "lognorm" then
    lift (construct_kw LognormPrior d)
  else if str_eqb functype "gauss" then
    mu ← lift (getitem d "mu");
    sigma ← lift (getitem d "sigma");
    mret (FunctionPrior functype mu sigma (gauss L) (Some (lngauss L)))
  else if str_eqb functype "lgauss" then
    mu ← lift (getitem d "mu");
    sigma ← lift (getitem d "sigma");
    mret (FunctionPrior functype mu sigma
            (λ x y s, lgauss L x y s None)
            (Some (λ x y s, lnlgauss L x y s None)))
  else if str_eqb functype "lgauss_like" || str_eqb functype "lgauss_lik"
  then
    let fn x y s := lgauss L y x s None in
    let lnfn x y s := lnlgauss L y x s None in
    mu ← lift (getitem d "mu");
    sigma ← lift (getitem d "sigma");
    mret (FunctionPrior functype mu sigma fn (Some lnfn))
  else if str_eqb functype "lgauss_log" then
    let fn x y s := lgauss L x y s (Some true) in
    let lnfn x y s := lnlgauss L x y s (Some true) in
    mu ← lift (getitem d "mu");
    sigma ← lift (getitem d "sigma");
    mret (FunctionPrior functype mu sigma fn (Some lnfn))
  else if str_eqb functype "interp" then
    filename ← lift (getitem d "filename");
    lift (FileFuncPrior filename)
  else
    raise (KeyError ("Unrecognized prior_functor type "
                       ++ percent_s functype)).

(** The strings the dispatch above accepts. *)
Definition recognized : list string :=
  [ "norm"; "lognorm"; "gauss"; "lgauss"; "lgauss_like"; "lgauss_lik";
    "lgauss_log"; "interp" ].
End Priors.

Arguments prior : clear implicits.

(** ** Vocabulary of the statements *)

(** A computation that leaves the object it runs on as it found it. *)
Definition read_only {S A : Type} (c : M S A) : Prop := ∀ s, (c s).1 = s.

Section Operations.
Context {num : Type} (L : library num).

(** Everything a caller can ask of an instance. *)
Inductive operation : Type :=
| op_funcname
| op_normalization
| op_normalization_range
| op_mean
| op_sigma
| op_marginalization_bins
| op_profile_bins
| op_log_value (x : pyval num)
| op_call (x : pyval num).

(** The instance after an operation, whatever it returned or raised. *)
Definition state_after (o : operation) (p : prior num) : prior num :=
  match o with
  | op_funcname => (funcname p).1
  | op_normalization => (normalization L p).1
  | op_normalization_range => (normalization_range L p).1
  | op_mean => (mean L p).1
  | op_sigma => (sigma p).1
  | op_marginalization_bins => (marginalization_bins L p).1
  | op_profile_bins => (profile_bins L p).1
  | op_log_value x => (log_value L x p).1
  | op_call x => (__call__ L x p).1
  end.

(** The log-form an instance was built with, if any. *)
Definition dedicated_log_form (p : prior num) : option (fn3 num) :=
  match p with
  | FunctionPrior_obj _ _ _ _ lnfn => lnfn
  | _ => None
  end.

(** The parameters an instance stores; the table is the last five. *)
Definition stored_mu (p : prior num) : option (pyval num) :=
  match p with
  | PriorFunctor_obj _ => None
  | FunctionPrior_obj _ mu _ _ _
  | LognormPrior_obj _ mu _
  | NormPrior_obj _ mu _
  | FileFuncPrior_obj _ _ mu _ _ _ _ _ _ => Some mu
  end.

Definition stored_sigma (p : prior num) : option (pyval num) :=
  match p with
  | PriorFunctor_obj _ => None
  | FunctionPrior_obj _ _ sigma _ _
  | LognormPrior_obj _ _ sigma
  | NormPrior_obj _ _ sigma
  | FileFuncPrior_obj _ _ _ sigma _ _ _ _ _ => Some sigma
  end.

(** The type the factory dispatches on: the entry [functype], or the
    default. *)
Definition functype_of (d : dict num) : pyval num :=
  dict_get d "functype" (PStr "lgauss_like").

(** What the branches that build a [FunctionPrior] return, as a
    computation in [result] over the popped dictionary. *)
Definition function_prior_of (d : dict num) (functype : pyval num)
    (fn : fn3 num) (lnfn : fn3 num) : result (prior num) :=
  mu ← getitem d "mu";
  sigma ← getitem d "sigma";
  mret (FunctionPrior functype mu sigma fn (Some lnfn)).

(** The types whose branch takes [mu] and [sigma] from the dictionary. *)
Definition parametric : list string :=
  [ "norm"; "lognorm"; "gauss"; "lgauss"; "lgauss_like"; "lgauss_lik";
    "lgauss_log" ].

(** [__call__(mean())] *)
Definition call_at_mean : M (prior num) (pyval num) :=
  m ← mean L;
  __call__ L m.

(** The first of the keys [FileFuncPrior] reads that a table lacks. *)
Definition first_missing (table : dict num) : option string :=
  head (filter (λ k, table !! k = None) ["mean"; "sigma"; "x"; "y"]).

(** Of those, the ones that look the two keys up one after the other. *)
Definition by_lookup : list string :=
  [ "gauss"; "lgauss"; "lgauss_like"; "lgauss_lik"; "lgauss_log" ].
End Operations.

(** ** The data range of a table *)

Section Range.
Context {num : Type} (ltb : num → num → bool).

(** Python's [min] and [max] over a list: the first extremal element. *)
Definition list_min (xs : list num) : option num :=
  match xs with
  | [] => None
  | x :: xs' => Some (foldl (λ m a, if ltb a m then a else m) x xs')
  end.

Definition list_max (xs : list num) : option num :=
  match xs with
  | [] => None
  | x :: xs' => Some (foldl (λ m a, if ltb m a then a else m) x xs')
  end.

(** [t] lies outside the closed interval from [min xs] to [max xs]. *)
Definition outside (xs : list num) (t : num) : bool :=
  match list_min xs, list_max xs with
  | Some lo, Some hi => ltb t lo || ltb hi t
  | _, _ => false
  end.
End Range.

(** What scipy documents for [interp1d] called with [bounds_error=False] and
    a number as [fill_value]: a point outside the data range is given the
    fill value. *)
Definition interp1d_fills {num : Type} (L : library num) : Prop :=
  ∀ (xs : list num) (y kind : pyval num) (f t : num) (g : fn1 num),
    interp1d L (PList (PNum <$> xs)) y kind false (PNum f) = Ok g →
    outside (num_ltb L) xs t = true →
    g (PNum t) = Ok (PNum f).

(** ** A reference library over the real numbers

    Floating-point numbers are idealised as reals, and the densities are the
    closed forms scipy documents.  Where numpy would answer [nan] or an
    infinity (with a warning), the reals have no such value and the
    reference library stops with [not_a_real]. *)

Module RealLib.
#[local] Open Scope R_scope.
#[export] Instance Rlt_decision : RelDecision Rlt := Rlt_dec.
#[export] Instance Rle_decision : RelDecision Rle := Rle_dec.

Abbreviation rval := (pyval R).

Definition type_error {A} (msg : string) : result A :=
  Err (LibraryError "TypeError" msg).

Definition not_a_real {A} : result A :=
  Err (LibraryError "FloatingPointError" "invalid value encountered").

Definition as_real (v : rval) : result R :=
  match v with
  | PNum x => Ok x
  | PInf => not_a_real
  | _ => type_error "a number is required"
  end.

Definition arith (op : R → R → R) (a b : rval) : result rval :=
  x ← as_real a;
  y ← as_real b;
  mret (PNum (op x y)).

Definition on_reals3 (f : R → R → R → result R) : fn3 R :=
  λ a b c,
    x ← as_real a;
    y ← as_real b;
    z ← as_real c;
    PNum <$> f x y z.

Definition max_ (a b : rval) : result rval :=
  x ← as_real a;
  y ← as_real b;
  mret (PNum (if bool_decide (x < y) then y else x)).

(** [str(v)].  A real number has no decimal expansion to print and a list
    may hold one: both are given a placeholder, and nothing below reads
    [str] of either. *)
Definition str (v : rval) : string :=
  match v with
  | PNone => "None"
  | PBool true => "True"
  | PBool false => "False"
  | PNum _ => "<float>"
  | PInf => "inf"
  | PStr s => s
  | PList _ => "[...]"
  end.

Definition index (v : rval) (i : Z) : result rval :=
  match v with
  | PList l =>
      match l !! Z.to_nat i with
      | Some e => Ok e
      | None => Err (LibraryError "IndexError" "list index out of range")
      end
  | _ => type_error "object is not subscriptable"
  end.

(** Of the names the module can see, only [print] accepts an instance and
    two numbers. *)
Definition call (Self : Type) (name : string) (self : Self) (a b : rval)
    : result rval :=
  if bool_decide (name = "print") then Ok PNone
  else type_error "object is not callable with these arguments".

Definition log (v : rval) : result rval :=
  x ← as_real v;
  if bool_decide (0 < x) then Ok (PNum (ln x)) else not_a_real.

Definition log10 (v : rval) : result rval :=
  x ← as_real v;
  if bool_decide (0 < x) then Ok (PNum (ln x / ln 10)) else not_a_real.

(** [n] samples, evenly spaced on a log scale, from [10^a] to [10^b]. *)
Definition logspace (a b : rval) (n : Z) : result rval :=
  a ← as_real a;
  b ← as_real b;
  mret (PList ((λ i, PNum (Rpower 10 (a + INR i * (b - a) / (IZR n - 1))))
                 <$> seq 0 (Z.to_nat n))).

(** [scipy.stats.norm]: the density [exp(-y^2/2) / sqrt(2 pi)] at
    [y = (x - loc) / scale], divided by [scale]. *)
Definition norm_pdf (loc scale x : R) : R :=
  (exp (- ((x - loc) / scale) ^ 2 / 2) / sqrt (2 * PI) / scale)%R.

(** [scipy.stats.lognorm] with shape [s] and [loc = 0]: the density
    [exp(-ln(y)^2 / (2 s^2)) / (s y sqrt(2 pi))] at [y = x / scale] for
    [y > 0] and 0 elsewhere, divided by [scale]. *)
Definition lognorm_pdf (s scale x : R) : R :=
  let y := (x / scale)%R in
  if bool_decide (0 < y) then
    (exp (- ln y ^ 2 / (2 * s ^ 2)) / (s * y * sqrt (2 * PI)) / scale)%R
  else 0%R.

Definition stats_norm : fn3 R :=
  on_reals3 (λ loc scale x,
    if bool_decide (0 < scale) then Ok (norm_pdf loc scale x)
    else not_a_real).

Definition stats_lognorm : fn3 R :=
  on_reals3 (λ s scale x,
    if bool_decide (0 < s) && bool_decide (0 < scale)
    then Ok (lognorm_pdf s scale x)
    else not_a_real).

(** *** [scipy.interpolate.interp1d], for [kind='linear'] *)

Definition ltb (a b : R) : bool := bool_decide (a < b).

Definition numbers (v : rval) : option (list R) :=
  match v with
  | PList l => mapM (λ e, match e with PNum n => Some n | _ => None end) l
  | _ => None
  end.

Definition by_x : relation (R * R) := λ a b, a.1 <= b.1.
#[export] Instance by_x_decision : RelDecision by_x :=
  λ a b, Rle_dec a.1 b.1.

(** The line through the two data points around [t]; before the first
    segment and after the last one, the line of that segment. *)
Fixpoint linear (pts : list (R * R)) (t : R) : R :=
  match pts with
  | [] => 0
  | (x0, y0) :: rest =>
      match rest with
      | [] => y0
      | (x1, y1) :: rest' =>
          if bool_decide (t <= x1) || bool_decide (length rest' = 0%nat)
          then y0 + (t - x0) * (y1 - y0) / (x1 - x0)
          else linear rest t
      end
  end.

Inductive fill_mode : Type :=
| fill_with (f : R)
| extrapolate.

(** [fill_value] is a number, or the string ['extrapolate']. *)
Definition fill_mode_of (fill_value : rval) : option fill_mode :=
  match fill_value with
  | PNum f => Some (fill_with f)
  | PStr s => if bool_decide (s = "extrapolate") then Some extrapolate
              else None
  | _ => None
  end.

Definition value_error {A} (msg : string) : result A :=
  Err (LibraryError "ValueError" msg).

Definition interp1d_call (xs ys : list R) (bounds_error : bool)
    (mode : fill_mode) : fn1 R :=
  λ x_new,
    t ← as_real x_new;
    let y_new := linear (merge_sort by_x (zip xs ys)) t in
    match mode with
    | extrapolate => Ok (PNum y_new)
    | fill_with f =>
        if outside ltb xs t then
          if bounds_error
          then value_error "A value in x_new is out of the interpolation range."
          else Ok (PNum f)
        else Ok (PNum y_new)
    end.

Definition interp1d_ref (x y kind : rval) (bounds_error : bool)
    (fill_value : rval) : result (fn1 R) :=
  match numbers x, numbers y, fill_mode_of fill_value with
  | Some xs, Some ys, Some mode =>
      if negb (str_eqb kind "linear") then
        Err (LibraryError "NotImplementedError"
               "only linear interpolation is modelled")
      else if negb (bool_decide (length xs = length ys)) then
        value_error "x and y arrays must be equal in length along interpolation axis."
      else if bool_decide (length xs < 2)%nat then
        value_error "x and y arrays must have at least 2 entries"
      else if bounds_error && match mode with extrapolate => true
                              | _ => false end then
        value_error "Cannot extrapolate and raise at the same time."
      else Ok (interp1d_call xs ys bounds_error mode)
  | _, _, _ => value_error "could not convert the arguments to arrays"
  end.

(** *** [dmsky.utils.stat_funcs] *)

(** Modelled from the spec: [dmsky/utils/stat_funcs.py] is not among the
    sources.  The spec and the factory's docstring name a Gaussian and a
    Gaussian in log-space; the usual closed forms are taken, the log-space
    one in base 10 as in [marginalization_bins]. *)
Definition gauss_pdf (x mu sigma : R) : R :=
  exp (- (x - mu) ^ 2 / (2 * sigma ^ 2)) / sqrt (2 * PI * sigma ^ 2).

Definition gauss_ref : fn3 R :=
  on_reals3 (λ x mu sigma,
    if bool_decide (0 < sigma) then Ok (gauss_pdf x mu sigma)
    else not_a_real).

Definition lngauss_ref : fn3 R :=
  on_reals3 (λ x mu sigma,
    if bool_decide (0 < sigma)
    then Ok (- (x - mu) ^ 2 / (2 * sigma ^ 2) - ln (2 * PI * sigma ^ 2) / 2)
    else not_a_real).

(** Modelled from the spec: as [gauss_pdf] on decimal logarithms, per
    unit of [x] unless [logpdf] is set. *)
Definition lgauss_pdf (x mu sigma : R) (logpdf : bool) : R :=
  let v := gauss_pdf (ln x / ln 10) (ln mu / ln 10) sigma in
  if logpdf then v else v / (x * ln 10).

Definition lgauss_ref (x mu sigma : rval) (logpdf : option bool)
    : result rval :=
  on_reals3 (λ x mu sigma,
    if bool_decide (0 < x) && bool_decide (0 < mu) && bool_decide (0 < sigma)
    then Ok (lgauss_pdf x mu sigma (default false logpdf))
    else not_a_real) x mu sigma.

Definition lnlgauss_ref (x mu sigma : rval) (logpdf : option bool)
    : result rval :=
  v ← lgauss_ref x mu sigma logpdf;
  log v.

(** *** Files *)

Definition table (entries : list (string * rval)) : dict R :=
  list_to_map entries.

Definition reals (l : list R) : rval := PList (PNum <$> l).

(** The files of the reference library: a table, a table that asks for
    extrapolation, and a table without [sigma]. *)
Definition files : list (string * dict R) :=
  [ ("prior.yaml",
     table [ ("mean", PNum 1); ("sigma", PNum (1 / 2));
             ("x", reals [0; 1; 2]); ("y", reals [0; 1; 0]);
             ("fill_value", PNum 7) ]);
    ("default.yaml",
     table [ ("mean", PNum 1); ("sigma", PNum (1 / 2));
             ("x", reals [0; 1; 2]); ("y", reals [0; 1; 0]) ]);
    ("extrapolate.yaml",
     table [ ("mean", PNum 1); ("sigma", PNum (1 / 2));
             ("x", reals [0; 1]); ("y", reals [0; 1]);
             ("fill_value", PStr "extrapolate") ]);
    ("truncated.yaml",
     table [ ("mean", PNum 1) ]) ].

(** Modelled from the spec: [dmsky/utils/tools.py] is not among the
    sources.  The spec has the table loaded from a file of key-value data;
    a name with no file behind it is refused. *)
Definition yaml_load_ref (filename : rval) : result (dict R) :=
  match filename with
  | PStr name =>
      match (list_to_map files : gmap string (dict R)) !! name with
      | Some d => Ok d
      | None => Err (LibraryError "Exception" ("File does not exist: " ++ name))
      end
  | _ => type_error "expected str, bytes or os.PathLike object"
  end.

(** What [FileFuncPrior('extrapolate.yaml')] builds. *)
Definition extrapolating_prior : prior R :=
  FileFuncPrior_obj (PStr "file") (PStr "extrapolate.yaml")
    (PNum 1) (PNum (1 / 2)) (reals [0; 1]) (reals [0; 1])
    (PStr "linear") (PStr "extrapolate")
    (interp1d_call [0; 1] [0; 1] false extrapolate).

(** *** Configurations *)

Definition config (entries : list (string * rval)) : dict R :=
  list_to_map entries.

Definition d_gauss : dict R :=
  config [ ("functype", PStr "gauss"); ("mu", PNum 1); ("sigma", PNum 2) ].

Definition d_default : dict R :=
  config [ ("mu", PNum 1); ("sigma", PNum 2) ].

Definition d_uniform : dict R :=
  config [ ("functype", PStr "uniform"); ("mu", PNum 1);
           ("sigma", PNum 2) ].

Definition d_no_mu : dict R :=
  config [ ("functype", PStr "gauss"); ("sigma", PNum 2) ].

Definition d_interp : dict R :=
  config [ ("functype", PStr "interp"); ("filename", PStr "prior.yaml");
           ("mu", PNum 5); ("sigma", PNum 2) ].

Definition d_norm_extra : dict R :=
  config [ ("functype", PStr "norm"); ("mu", PNum 0); ("sigma", PNum 1);
           ("filename", PStr "prior.yaml") ].

Definition d_none : dict R :=
  config [ ("functype", PNone); ("mu", PNum 1); ("sigma", PNum 2) ].

Definition lib : library R := {|
  num_of_Z := IZR;
  num_ltb := ltb;
  py_add := arith Rplus;
  py_sub := arith Rminus;
  py_mul := arith Rmult;
  py_max := max_;
  py_str := str;
  py_index := index;
  call_name := call;
  np_log := log;
  np_log10 := log10;
  np_logspace := logspace;
  stats_norm_pdf := stats_norm;
  stats_lognorm_pdf := stats_lognorm;
  interp1d := interp1d_ref;
  gauss := gauss_ref;
  lngauss := lngauss_ref;
  lgauss := lgauss_ref;
  lnlgauss := lnlgauss_ref;
  yaml_load := yaml_load_ref;
|}.
End RealLib.

(** ** Consistency of a tabulated prior *)

Section Consistency.
Context {num : Type} (L : library num).

(** The interpolant a tabulated prior stores is the one [interp1d] builds
    from the table it stores, with [bounds_error=False]. *)
Definition table_consistent (p : prior num) : Prop :=
  match p with
  | FileFuncPrior_obj _ _ _ _ x y kind fill_value interpfunc =>
      interp1d L x y kind false fill_value = Ok interpfunc
  | _ => True
  end.
End Consistency.

(** ** [setup.py]: the classifiers *)

Module SetupPy.

Definition newline : ascii := "010"%char.

(** [s.split(sep)] for a separator of one character. *)
Fixpoint split (sep : ascii) (s : string) : list string :=
  match s with
  | EmptyString => [""]
  | String c s' =>
      if decide (c = sep) then "" :: split sep s'
      else match split sep s' with
           | [] => [String c ""]
           | w :: ws => String c w :: ws
           end
  end.

(** [[_f for _f in text.split('\n') if _f]] *)
Definition nonempty_lines (text : string) : list string :=
  filter (λ _f, _f ≠ "") (split newline text).

Definition NAME : string := "dmsky".

Definition CLASSIFIERS : string :=
"Development Status :: 2 - Pre-Alpha
Intended Audience :: Science/Research
Intended Audience :: Developers
Programming Language :: Python
Natural Language :: English
Topic :: Scientific/Engineering
Topic :: Scientific/Engineering :: Physics
Topic :: Scientific/Engineering :: Astronomy
Operating System :: MacOS
Operating System :: POSIX
License :: OSI Approved :: MIT License
".

Definition URL : string := "https://github.com/kadrlica/dmsky".
Definition DESC : string := "Dark matter skymaps.".
Definition LONG_DESC : string := "See " ++ URL.

(** The keyword [classifiers] of the call to [setup]. *)
Definition classifiers : list string := nonempty_lines CLASSIFIERS.

(** A text made of the given lines, each ended by a newline. *)
Definition unlines (ls : list string) : string :=
  foldr (λ l rest, l ++ String newline rest) "" ls.

(** Whether a character occurs in a string. *)
Fixpoint occurs (c : ascii) (s : string) : bool :=
  match s with
  | EmptyString => false
  | String c' s' => bool_decide (c' = c) || occurs c s'
  end.

(** A line: not empty, and without a newline. *)
Definition line (l : string) : Prop := l ≠ "" ∧ occurs newline l = false.

#[export] Instance line_dec (l : string) : Decision (line l).
Proof. unfold line. apply _. Defined.
End SetupPy.

(** * Properties *)

(** ** Reading without writing *)

Section ReadOnly.
Context {S : Type}.

Lemma read_only_ret {A} (a : A) : read_only (mret a : M S A).
Proof. by intros s. Qed.

Lemma read_only_lift {A} (r : result A) : read_only (lift r : M S A).
Proof. by intros s. Qed.

Lemma read_only_raise {A} (e : exn) : read_only (raise e : M S A).
Proof. by intros s. Qed.

Lemma read_only_get : read_only (get : M S S).
Proof. by intros s. Qed.

Lemma read_only_bind {A B} (c : M S A) (f : A → M S B) :
  read_only c → (∀ a, read_only (f a)) → read_only (c ≫= f).
Proof.
  intros Hc Hf s. unfold mbind, M_bind. specialize (Hc s).
  destruct (c s) as [s' [a|e]]; simpl in *; subst; [apply Hf | done].
Qed.

(** A read-only computation returns what it returns on any later run. *)
Lemma read_only_again {A} (c : M S A) (s : S) :
  read_only c → c (c s).1 = c s.
Proof. intros Hc. by rewrite (Hc s). Qed.
End ReadOnly.

Create HintDb read_only.
#[global] Hint Resolve read_only_ret read_only_lift read_only_raise
  read_only_get : read_only.

Ltac read_only_step :=
  lazymatch goal with
  | |- read_only (_ ≫= _) => apply read_only_bind; [| intros ?]
  | |- read_only (match ?x with _ => _ end) => destruct x
  | |- read_only _ => solve [ auto with read_only ]
  end.

Ltac solve_read_only := repeat read_only_step.

(** Running a computation of [M] on a given object. *)
Ltac run_M :=
  cbv [mbind M_bind get put lift raise mret M_ret]; cbn.

Section Methods.
Context {num : Type} (L : library num).
Implicit Types (p : prior num) (x : pyval num).

Lemma funcname_read_only : read_only (funcname (num:=num)).
Proof. unfold funcname. solve_read_only. Qed.

Lemma normalization_range_read_only : read_only (normalization_range L).
Proof. unfold normalization_range. solve_read_only. Qed.

Lemma mean_read_only : read_only (mean L).
Proof. unfold mean. solve_read_only. Qed.

Lemma sigma_read_only : read_only (sigma (num:=num)).
Proof. unfold sigma. solve_read_only. Qed.

Lemma call_read_only x : read_only (__call__ L x).
Proof. unfold __call__. solve_read_only. Qed.

Lemma log_value_read_only x : read_only (log_value L x).
Proof.
  unfold log_value, FunctionPrior_log_value, PriorFunctor_log_value.
  solve_read_only; apply call_read_only.
Qed.

Lemma normalization_read_only : read_only (normalization L).
Proof.
  unfold normalization, FunctionPrior_normalization,
    PriorFunctor_normalization.
  solve_read_only; apply normalization_range_read_only.
Qed.

Lemma marginalization_bins_read_only : read_only (marginalization_bins L).
Proof.
  unfold marginalization_bins. solve_read_only; apply mean_read_only.
Qed.

Lemma profile_bins_read_only : read_only (profile_bins L).
Proof.
  unfold profile_bins.
  solve_read_only; first [apply mean_read_only | apply sigma_read_only].
Qed.

Lemma state_after_id (o : operation) p : state_after L o p = p.
Proof.
  destruct o; simpl;
    [ apply funcname_read_only | apply normalization_read_only
    | apply normalization_range_read_only | apply mean_read_only
    | apply sigma_read_only | apply marginalization_bins_read_only
    | apply profile_bins_read_only | apply log_value_read_only
    | apply call_read_only ].
Qed.
End Methods.

(** ** Constructors and lookups, inverted *)

Section Inversion.
Context {num : Type} (L : library num).

Lemma getitem_Ok (d : dict num) k v : getitem d k = Ok v ↔ d !! k = Some v.
Proof.
  unfold getitem. destruct (d !! k); split; intros H; by simplify_eq.
Qed.

Lemma getitem_Err (d : dict num) k e :
  getitem d k = Err e ↔ d !! k = None ∧ e = KeyError k.
Proof.
  unfold getitem. destruct (d !! k); split.
  - done.
  - by intros [? ?].
  - by intros [= <-].
  - by intros [_ ->].
Qed.

Lemma bind_Ok {A B} (r : result A) (f : A → result B) b :
  r ≫= f = Ok b ↔ ∃ a, r = Ok a ∧ f a = Ok b.
Proof.
  destruct r as [a|e]; cbn; split.
  - eauto.
  - by intros (? & [= <-] & ?).
  - done.
  - by intros (? & ? & ?).
Qed.

Lemma bind_Err {A B} (r : result A) (f : A → result B) e :
  r ≫= f = Err e ↔ r = Err e ∨ ∃ a, r = Ok a ∧ f a = Err e.
Proof.
  destruct r as [a|e']; cbn; split.
  - eauto.
  - by intros [?|(? & [= <-] & ?)].
  - intros [= <-]. by left.
  - by intros [[= <-]|(? & ? & ?)].
Qed.

(** What a constructed [FileFuncPrior] stores. *)
Lemma FileFuncPrior_Ok filename q :
  FileFuncPrior L filename = Ok q ↔
  ∃ d mu sg x y g,
    yaml_load L filename = Ok d
    ∧ d !! "mean" = Some mu ∧ d !! "sigma" = Some sg
    ∧ d !! "x" = Some x ∧ d !! "y" = Some y
    ∧ interp1d L x y (dict_get d "kind" (PStr "linear")) false
        (dict_get d "fill_value" (PNum (num_of_Z L 0))) = Ok g
    ∧ q = FileFuncPrior_obj (PStr "file") filename mu sg x y
            (dict_get d "kind" (PStr "linear"))
            (dict_get d "fill_value" (PNum (num_of_Z L 0))) g.
Proof.
  unfold FileFuncPrior. split.
  - intros H.
    apply bind_Ok in H as (d & Hd & H).
    apply bind_Ok in H as (mu & Hmu%getitem_Ok & H).
    apply bind_Ok in H as (sg & Hsg%getitem_Ok & H).
    apply bind_Ok in H as (x & Hx%getitem_Ok & H).
    apply bind_Ok in H as (y & Hy%getitem_Ok & H).
    apply bind_Ok in H as (g & Hg & H).
    injection H as <-. by exists d, mu, sg, x, y, g.
  - intros (d & mu & sg & x & y & g & Hd & Hmu & Hsg & Hx & Hy & Hg & ->).
    rewrite Hd; cbn.
    rewrite (proj2 (getitem_Ok d "mean" mu) Hmu); cbn.
    rewrite (proj2 (getitem_Ok d "sigma" sg) Hsg); cbn.
    rewrite (proj2 (getitem_Ok d "x" x) Hx); cbn.
    rewrite (proj2 (getitem_Ok d "y" y) Hy); cbn.
    by rewrite Hg.
Qed.
End Inversion.

(** ** The instance is never written *)

Section Invariant.
Context {num : Type} (L : library num).
Implicit Types (p : prior num) (x : pyval num).

(** C6.  Whatever operations are run on an instance, in any number and
    order, the instance (function name, mu, sigma and, for a tabulated
    prior, the table and its interpolant) is afterwards what the
    constructor made it; evaluating the prior or its logarithm at [x] after
    them returns what it returned before them and again leaves the
    instance as it was. *)
Theorem prior_is_immutable p (ops : list (operation (num:=num))) x :
  let p' := foldl (λ q o, state_after L o q) p ops in
  p' = p
  ∧ __call__ L x p' = (p, (__call__ L x p).2)
  ∧ log_value L x p' = (p, (log_value L x p).2)
  ∧ __call__ L x (__call__ L x p).1 = __call__ L x p
  ∧ log_value L x (log_value L x p).1 = log_value L x p.
Proof.
  assert (Hfold : foldl (λ q o, state_after L o q) p ops = p).
  { induction ops as [|o ops IH] using rev_ind; [done |].
    by rewrite foldl_app; simpl; rewrite IH, state_after_id. }
  simpl. rewrite Hfold.
  pose proof (call_read_only L x p) as Hc.
  pose proof (log_value_read_only L x p) as Hl.
  repeat split.
  - rewrite <- Hc at 2. by destruct (__call__ L x p).
  - rewrite <- Hl at 2. by destruct (log_value L x p).
  - by rewrite Hc.
  - by rewrite Hl.
Qed.

(** C3.  Without a dedicated log-form, [log_value(x)] is [np.log] of
    [__call__(x)]; that is the case of [LognormPrior], [NormPrior] and
    [FileFuncPrior] and of a [FunctionPrior] built with [lnfn=None].  With
    one, as in [GaussPrior], [LGaussPrior], [LGaussLikePrior] and
    [LGaussLogPrior], [log_value(x)] is [lnfn(x, mu, sigma)] itself. *)
Theorem log_value_spec p x :
  (dedicated_log_form p = None →
     (log_value L x p).2 = (__call__ L x p).2 ≫= np_log L)
  ∧ (∀ lnfn mu sg,
       dedicated_log_form p = Some lnfn →
       stored_mu p = Some mu → stored_sigma p = Some sg →
       (log_value L x p).2 = lnfn x mu sg)
  ∧ (∀ mu sg,
       dedicated_log_form (LognormPrior mu sg) = None
       ∧ dedicated_log_form (NormPrior mu sg) = None
       ∧ dedicated_log_form (GaussPrior L mu sg) = Some (lngauss L)
       ∧ dedicated_log_form (LGaussPrior L mu sg)
         = Some (λ x y s, lnlgauss L x y s None)
       ∧ dedicated_log_form (LGaussLikePrior L mu sg)
         = Some (λ x y s, lnlgauss L y x s None)
       ∧ dedicated_log_form (LGaussLogPrior L mu sg)
         = Some (λ x y s, lnlgauss L x y s (Some true)))
  ∧ (∀ filename q, FileFuncPrior L filename = Ok q →
       dedicated_log_form q = None).
Proof.
  split; [| split; [| split]].
  - intros Hnone.
    destruct p as [f|f mu sg fn lnfn|f mu sg|f mu sg|f fl mu sg xs ys k fv g];
      simpl in *; subst;
      unfold log_value, FunctionPrior_log_value, PriorFunctor_log_value,
        __call__; run_M; try done.
    + by destruct (fn x mu sg).
    + by destruct (stats_lognorm_pdf L sg mu x).
    + by destruct (stats_norm_pdf L mu sg x).
    + by destruct (g x).
  - intros lnfn mu sg Hsome Hmu Hsg.
    destruct p; simpl in *; try done. by simplify_eq.
  - done.
  - intros filename q Hq.
    by apply FileFuncPrior_Ok in Hq as (? & ? & ? & ? & ? & ? & ? & ? & ?
                                        & ? & ? & ? & ->).
Qed.

(** C10.  On a [FunctionPrior], whatever it was built with,
    [normalization()] raises [NameError] for the name [quad]: the module
    binds no such name and neither do the builtins. *)
Theorem normalization_raises_NameError
    (fname mu sg : pyval num) (fn : fn3 num) (lnfn : option (fn3 num)) :
  let p := FunctionPrior fname mu sg fn lnfn in
  normalization L p = (p, Err (NameError "quad"))
  ∧ ("quad" ∉ (module_globals ++ builtins)%list)
  ∧ normalization L (GaussPrior L mu sg)
    = (GaussPrior L mu sg, Err (NameError "quad"))
  ∧ normalization L (LGaussPrior L mu sg)
    = (LGaussPrior L mu sg, Err (NameError "quad"))
  ∧ normalization L (LGaussLikePrior L mu sg)
    = (LGaussLikePrior L mu sg, Err (NameError "quad"))
  ∧ normalization L (LGaussLogPrior L mu sg)
    = (LGaussLogPrior L mu sg, Err (NameError "quad")).
Proof.
  repeat split; try reflexivity.
  apply (bool_decide_unpack _). by vm_compute.
Qed.
End Invariant.

(** ** The factory, branch by branch *)

(** Deciding the comparisons of a dispatch on a known string. *)
Ltac eval_dispatch H :=
  repeat match type of H with
         | context [bool_decide ?P] =>
             let b := eval vm_compute in (bool_decide P) in
             change (bool_decide P) with b in H
         end;
  cbv beta iota delta [orb] in H.

Section Factory.
Context {num : Type} (L : library num).
Implicit Types (d : dict num) (p : prior num) (ft : string).

Lemma functype_of_Some d v : d !! "functype" = Some v → functype_of d = v.
Proof. unfold functype_of, dict_get. by intros ->. Qed.

Lemma functype_of_None d :
  d !! "functype" = None → functype_of d = PStr "lgauss_like".
Proof. unfold functype_of, dict_get. by intros ->. Qed.

Lemma lookup_popped d k :
  k ≠ "functype" → delete "functype" d !! k = d !! k.
Proof. intros Hk. by rewrite lookup_delete_ne. Qed.

(** Binding [mu] and [sigma] from keyword arguments. *)
Lemma construct_kw_Ok (cls : pyval num → pyval num → prior num) d p :
  construct_kw cls d = Ok p →
  ∃ mu sg, d !! "mu" = Some mu ∧ d !! "sigma" = Some sg ∧ p = cls mu sg.
Proof.
  unfold construct_kw, bind_kwargs.
  case_decide; [| done].
  destruct (d !! "mu") as [mu|] eqn:Hmu, (d !! "sigma") as [sg|] eqn:Hsg;
    cbn; rewrite ?Hmu, ?Hsg; cbn; try done.
  intros [= <-]. eauto.
Qed.

Lemma construct_kw_missing (cls : pyval num → pyval num → prior num) d :
  d !! "mu" = None ∨ d !! "sigma" = None →
  ∃ why, construct_kw cls d = Err (TypeError why).
Proof.
  unfold construct_kw, bind_kwargs. intros Hmiss.
  case_decide; [| eauto].
  destruct (d !! "mu") as [mu|] eqn:Hmu, (d !! "sigma") as [sg|] eqn:Hsg;
    cbn; rewrite ?Hmu, ?Hsg; cbn; eauto.
  by destruct Hmiss.
Qed.

(** The factory is [d.pop] followed by a dispatch that only reads. *)
Lemma create_prior_functor_state d :
  (create_prior_functor L d).1 = delete "functype" d.
Proof.
  unfold create_prior_functor, dict_pop. run_M.
  set (d' := delete "functype" d).
  set (functype := dict_get d "functype" (PStr "lgauss_like")).
  repeat lazymatch goal with
  | |- context [if ?b then _ else _] => destruct b
  end;
  repeat lazymatch goal with
  | |- context [match ?r with Ok _ => _ | Err _ => _ end] => destruct r
  end; reflexivity.
Qed.

Lemma create_prior_functor_branch d ft :
  functype_of d = PStr ft →
  let d' := delete "functype" d in
  (create_prior_functor L d).2 =
    if bool_decide (ft = "norm") then construct_kw NormPrior d'
    else if bool_decide (ft = "lognorm") then construct_kw LognormPrior d'
    else if bool_decide (ft = "gauss") then
      function_prior_of d' (PStr ft) (gauss L) (lngauss L)
    else if bool_decide (ft = "lgauss") then
      function_prior_of d' (PStr ft) (λ x y s, lgauss L x y s None)
        (λ x y s, lnlgauss L x y s None)
    else if bool_decide (ft = "lgauss_like") || bool_decide (ft = "lgauss_lik")
    then
      function_prior_of d' (PStr ft) (λ x y s, lgauss L y x s None)
        (λ x y s, lnlgauss L y x s None)
    else if bool_decide (ft = "lgauss_log") then
      function_prior_of d' (PStr ft) (λ x y s, lgauss L x y s (Some true))
        (λ x y s, lnlgauss L x y s (Some true))
    else if bool_decide (ft = "interp") then
      getitem d' "filename" ≫= FileFuncPrior L
    else Err (KeyError ("Unrecognized prior_functor type " ++ ft)).
Proof using Type.
  intros Hft d'. unfold create_prior_functor, dict_pop. run_M.
  fold (functype_of d). rewrite Hft. fold d'. cbn.
  unfold function_prior_of.
  repeat lazymatch goal with
  | |- context [bool_decide ?P] => destruct (bool_decide P)
  end; cbn;
  repeat lazymatch goal with
  | |- context [getitem ?a ?b] => destruct (getitem a b)
  end; reflexivity.
Qed.

Lemma function_prior_of_Ok d v fn lnfn p :
  function_prior_of d v fn lnfn = Ok p →
  ∃ mu sg, d !! "mu" = Some mu ∧ d !! "sigma" = Some sg
           ∧ p = FunctionPrior v mu sg fn (Some lnfn).
Proof.
  unfold function_prior_of. intros H.
  apply bind_Ok in H as (mu & Hmu%getitem_Ok & H).
  apply bind_Ok in H as (sg & Hsg%getitem_Ok & H).
  injection H as <-. eauto.
Qed.

Lemma function_prior_of_Err d v fn lnfn e :
  function_prior_of d v fn lnfn = Err e →
  (d !! "mu" = None ∧ e = KeyError "mu")
  ∨ (is_Some (d !! "mu") ∧ d !! "sigma" = None ∧ e = KeyError "sigma").
Proof.
  unfold function_prior_of. intros H.
  apply bind_Err in H as [H%getitem_Err|(mu & Hmu%getitem_Ok & H)];
    [by left |].
  apply bind_Err in H as [[? ?]%getitem_Err|(sg & _ & H)]; [| done].
  right. eauto.
Qed.

(** C9.  After any call, returning or raising, the caller's dictionary is
    the one it passed with the key [functype] deleted: that key is gone
    and every other key holds what it held. *)
Theorem create_prior_functor_pops_functype d :
  let d' := (create_prior_functor L d).1 in
  d' = delete "functype" d
  ∧ d' !! "functype" = None
  ∧ ∀ k, k ≠ "functype" → d' !! k = d !! k.
Proof.
  simpl. rewrite create_prior_functor_state. split; [done | split].
  - apply lookup_delete_eq.
  - intros k Hk. by apply lookup_popped.
Qed.

(** C2.  A [functype] string outside the recognised ones raises
    [KeyError] with the message ["Unrecognized prior_functor type "]
    followed by that string.  For a recognised one, an error is never of
    the factory's making: it is the [KeyError] of a failed lookup of [mu],
    [sigma] or [filename], or what binding the keyword arguments raised,
    or what the [FileFuncPrior] constructor raised. *)
Theorem unrecognized_functype_raises d ft :
  functype_of d = PStr ft →
  let d' := delete "functype" d in
  let r := (create_prior_functor L d).2 in
  (ft ∉ recognized →
     r = Err (KeyError ("Unrecognized prior_functor type " ++ ft)))
  ∧ (ft ∈ recognized → ∀ e, r = Err e →
       (∃ k, k ∈ ["mu"; "sigma"; "filename"]
             ∧ d' !! k = None ∧ e = KeyError k)
       ∨ (∃ cls, construct_kw cls d' = Err e)
       ∨ (∃ f, d' !! "filename" = Some f ∧ FileFuncPrior L f = Err e)).
Proof.
  intros Hft d' r. subst r.
  rewrite (create_prior_functor_branch d ft Hft). fold d'. split.
  - intros Hnot. unfold recognized in Hnot.
    rewrite !bool_decide_eq_false_2;
      [done | intros ->; apply Hnot; repeat constructor..].
  - intros Hin e. unfold recognized in Hin.
    assert (lookup_failed : ∀ v fn lnfn,
              function_prior_of d' v fn lnfn = Err e →
              (∃ k, k ∈ ["mu"; "sigma"; "filename"]
                    ∧ d' !! k = None ∧ e = KeyError k)
              ∨ (∃ cls, construct_kw cls d' = Err e)
              ∨ (∃ f, d' !! "filename" = Some f
                      ∧ FileFuncPrior L f = Err e)).
    { intros v fn lnfn Hf.
      apply function_prior_of_Err in Hf as [[Hk Hf]|(_ & Hk & Hf)];
        left; [exists "mu" | exists "sigma"];
        (split; [repeat constructor | done]). }
    rewrite !elem_of_cons, elem_of_nil in Hin.
    destruct Hin as [->|[->|[->|[->|[->|[->|[->|[->|[]]]]]]]]];
      intros He; eval_dispatch He.
    + right; left; eauto.
    + right; left; eauto.
    + by apply lookup_failed in He.
    + by apply lookup_failed in He.
    + by apply lookup_failed in He.
    + by apply lookup_failed in He.
    + by apply lookup_failed in He.
    + apply bind_Err in He as [He|(f & Hf%getitem_Ok & He)].
      * apply getitem_Err in He as [Hk He].
        left. exists "filename". split; [repeat constructor | done].
      * right; right; eauto.
Qed.

Lemma FileFuncPrior_first_missing f table k :
  yaml_load L f = Ok table → first_missing table = Some k →
  FileFuncPrior L f = Err (KeyError k).
Proof.
  unfold FileFuncPrior, first_missing, getitem. intros -> Hk.
  cbn in Hk |- *.
  destruct (table !! "mean"), (table !! "sigma"), (table !! "x"),
    (table !! "y"); cbn in Hk |- *;
    repeat case_decide; by simplify_eq/=.
Qed.

(** C7.  With a recognised type, a failure below the factory is the
    factory's outcome as it stands.  A missing [mu] or [sigma] is the
    [KeyError] of the lookup (or, for [norm] and [lognorm], the
    [TypeError] of the constructor call); a missing [filename] is the
    [KeyError] of its lookup; and with a file name the outcome is that of
    the [FileFuncPrior] constructor: the loader's error, the [KeyError]
    of the first key the table lacks, or [interp1d]'s error. *)
Theorem factory_errors_propagate d ft :
  functype_of d = PStr ft →
  let d' := delete "functype" d in
  let r := (create_prior_functor L d).2 in
  (ft ∈ by_lookup →
     (d !! "mu" = None → r = Err (KeyError "mu"))
     ∧ (is_Some (d !! "mu") → d !! "sigma" = None →
          r = Err (KeyError "sigma")))
  ∧ (ft = "norm" →
       r = construct_kw NormPrior d'
       ∧ (d !! "mu" = None ∨ d !! "sigma" = None →
            ∃ why, r = Err (TypeError why)))
  ∧ (ft = "lognorm" →
       r = construct_kw LognormPrior d'
       ∧ (d !! "mu" = None ∨ d !! "sigma" = None →
            ∃ why, r = Err (TypeError why)))
  ∧ (ft = "interp" →
       (d !! "filename" = None → r = Err (KeyError "filename"))
       ∧ ∀ f, d !! "filename" = Some f →
           r = FileFuncPrior L f
           ∧ (∀ e, yaml_load L f = Err e → r = Err e)
           ∧ (∀ table, yaml_load L f = Ok table →
                (∀ k, first_missing table = Some k → r = Err (KeyError k))
                ∧ (∀ mu sg x y e,
                     table !! "mean" = Some mu → table !! "sigma" = Some sg →
                     table !! "x" = Some x → table !! "y" = Some y →
                     interp1d L x y (dict_get table "kind" (PStr "linear"))
                       false
                       (dict_get table "fill_value" (PNum (num_of_Z L 0)))
                     = Err e →
                     r = Err e))).
Proof.
  intros Hft d' r. subst r.
  pose proof (create_prior_functor_branch d ft Hft) as Hr. fold d' in Hr.
  assert (Hmu : d' !! "mu" = d !! "mu") by by apply lookup_popped.
  assert (Hsg : d' !! "sigma" = d !! "sigma") by by apply lookup_popped.
  assert (Hfn : d' !! "filename" = d !! "filename") by by apply lookup_popped.
  assert (Hlookup : ∀ v fn lnfn,
            (d !! "mu" = None →
               function_prior_of d' v fn lnfn = Err (KeyError "mu"))
            ∧ (is_Some (d !! "mu") → d !! "sigma" = None →
                 function_prior_of d' v fn lnfn = Err (KeyError "sigma"))).
  { intros v fn lnfn. unfold function_prior_of, getitem.
    rewrite Hmu, Hsg. split.
    - by intros ->.
    - by intros [mu ->] ->. }
  split; [| split; [| split]].
  - intros Hin. unfold by_lookup in Hin.
    rewrite !elem_of_cons, elem_of_nil in Hin.
    destruct Hin as [->|[->|[->|[->|[->|[]]]]]];
      eval_dispatch Hr; rewrite Hr; apply Hlookup.
  - intros ->. eval_dispatch Hr. split; [done |].
    rewrite Hr, <- Hmu, <- Hsg. apply construct_kw_missing.
  - intros ->. eval_dispatch Hr. split; [done |].
    rewrite Hr, <- Hmu, <- Hsg. apply construct_kw_missing.
  - intros ->. eval_dispatch Hr. rewrite Hr. unfold getitem.
    rewrite Hfn. split; [by intros -> |].
    intros f ->. cbn. split; [done | split].
    + intros e He. unfold FileFuncPrior. by rewrite He.
    + intros table Htable. split.
      * intros k Hk. by apply FileFuncPrior_first_missing with table.
      * intros mu sg x y e Hmean Hsigma Hx Hy He.
        unfold FileFuncPrior, getitem. rewrite Htable; cbn.
        rewrite Hmean; cbn. rewrite Hsigma; cbn. rewrite Hx; cbn.
        rewrite Hy; cbn. by rewrite He.
Qed.

(** C8, amended.  A dictionary without [functype] that holds [mu] and
    [sigma] is left as it is, and the factory returns the
    [FunctionPrior] named [lgauss_like] over those two values, whose
    density and log-density are [lgauss] and [lnlgauss] with their first
    two arguments exchanged. *)
Theorem default_functype_is_lgauss_like d mu sg :
  d !! "functype" = None →
  d !! "mu" = Some mu →
  d !! "sigma" = Some sg →
  let p := FunctionPrior (PStr "lgauss_like") mu sg
             (λ x y s, lgauss L y x s None)
             (Some (λ x y s, lnlgauss L y x s None)) in
  create_prior_functor L d = (d, Ok p)
  ∧ p = LGaussLikePrior L mu sg
  ∧ ∀ x, __call__ L x p = (p, lgauss L mu x sg None)
         ∧ log_value L x p = (p, lnlgauss L mu x sg None).
Proof.
  intros Hft Hmu Hsg p. split; [| done].
  pose proof (create_prior_functor_state d) as Hstate.
  pose proof (create_prior_functor_branch d "lgauss_like"
                (functype_of_None d Hft)) as Hr.
  eval_dispatch Hr. rewrite (delete_id _ _ Hft) in Hstate, Hr.
  unfold function_prior_of, getitem in Hr. rewrite Hmu, Hsg in Hr.
  destruct (create_prior_functor L d) as [d' r]. simpl in *. by subst.
Qed.

(** C1, amended.  When the factory returns a prior for one of the types
    [norm], [lognorm], [gauss], [lgauss], [lgauss_like] (also spelt
    [lgauss_lik]) and [lgauss_log], the dictionary held [mu] and [sigma]
    and the prior's [mean()] and [sigma()] return them.  For [interp], they
    return the entries [mean] and [sigma] of the table loaded from the file
    the dictionary names. *)
Theorem factory_mean_sigma d ft d' p :
  functype_of d = PStr ft →
  create_prior_functor L d = (d', Ok p) →
  (ft ∈ parametric →
     ∃ mu sg, d !! "mu" = Some mu ∧ d !! "sigma" = Some sg
              ∧ mean L p = (p, Ok mu) ∧ sigma p = (p, Ok sg))
  ∧ (ft = "interp" →
       ∃ f table m s,
         d !! "filename" = Some f ∧ yaml_load L f = Ok table
         ∧ table !! "mean" = Some m ∧ table !! "sigma" = Some s
         ∧ mean L p = (p, Ok m) ∧ sigma p = (p, Ok s)).
Proof.
  intros Hft Hcreate.
  pose proof (create_prior_functor_branch d ft Hft) as Hr.
  rewrite Hcreate in Hr. simpl in Hr. symmetry in Hr.
  set (d0 := delete "functype" d) in Hr.
  assert (Hmu : d0 !! "mu" = d !! "mu") by by apply lookup_popped.
  assert (Hsg : d0 !! "sigma" = d !! "sigma") by by apply lookup_popped.
  assert (Hfn : d0 !! "filename" = d !! "filename") by by apply lookup_popped.
  rewrite <- Hmu, <- Hsg, <- Hfn. clearbody d0. clear Hmu Hsg Hfn.
  split.
  - intros Hin. unfold parametric in Hin.
    rewrite !elem_of_cons, elem_of_nil in Hin.
    destruct Hin as [->|[->|[->|[->|[->|[->|[->|[]]]]]]]];
      eval_dispatch Hr;
      first [ apply construct_kw_Ok in Hr as (mu & sg & ? & ? & ->)
            | apply function_prior_of_Ok in Hr as (mu & sg & ? & ? & ->) ];
      by exists mu, sg.
  - intros ->. eval_dispatch Hr.
    apply bind_Ok in Hr as (f & Hf%getitem_Ok & Hr).
    apply FileFuncPrior_Ok in Hr
      as (table & m & s & x & y & g & ? & ? & ? & ? & ? & ? & ->).
    by exists f, table, m, s.
Qed.
End Factory.

(** ** Tabulated priors *)

Section Tabulated.
Context {num : Type} (L : library num).

(** C4, amended.  Take a [FileFuncPrior] built from a table whose [x] is the
    list of numbers [xs] and whose fill value (the entry [fill_value], 0
    when the table has none) is the number [f]; provided [interp1d] fills
    as scipy documents, the prior called at a number outside the range of
    [xs] returns [f], raising nothing and leaving the instance alone. *)
Theorem tabulated_prior_fill_value
    (filename : pyval num) (table : dict num) (p : prior num)
    (xs : list num) (f t : num) :
  interp1d_fills L →
  yaml_load L filename = Ok table →
  FileFuncPrior L filename = Ok p →
  table !! "x" = Some (PList (PNum <$> xs)) →
  dict_get table "fill_value" (PNum (num_of_Z L 0)) = PNum f →
  outside (num_ltb L) xs t = true →
  __call__ L (PNum t) p = (p, Ok (PNum f)).
Proof.
  intros Hfills Hload Hp Hx Hfill Hout.
  apply FileFuncPrior_Ok in Hp
    as (table' & m & s & x & y & g & Hload' & _ & _ & Hx' & _ & Hg & ->).
  rewrite Hload in Hload'. injection Hload' as <-.
  rewrite Hx in Hx'. injection Hx' as <-.
  rewrite Hfill in *.
  unfold __call__. run_M. f_equal. by eapply Hfills.
Qed.
End Tabulated.

(** ** The reference library *)

Module RealFacts.
Import RealLib.
#[local] Open Scope R_scope.

(** Running a method of the reference library down to the library call. *)
Ltac run_lib :=
  unfold call_at_mean, mean, __call__, NormPrior, LognormPrior,
    FunctionPrior;
  cbv [mbind M_bind get lift mret M_ret];
  cbn [fst snd stats_norm_pdf stats_lognorm_pdf lib].

Ltac decide_reals :=
  repeat match goal with
         | |- context [bool_decide (?a < ?b)] =>
             first [ rewrite (bool_decide_eq_true_2 (a < b)) by lra
                   | rewrite (bool_decide_eq_false_2 (a < b)) by lra ]
         end.

Lemma sqrt_2PI_pos : 0 < sqrt (2 * PI).
Proof. apply sqrt_lt_R0. pose proof PI_RGT_0. lra. Qed.

Lemma numbers_reals (xs : list R) : numbers (reals xs) = Some xs.
Proof.
  unfold numbers, reals. induction xs as [|x xs IH]; [done |].
  cbn in *. by rewrite IH.
Qed.

(** The reference [interp1d] fills as scipy documents. *)
Lemma lib_interp1d_fills : interp1d_fills lib.
Proof.
  intros xs y kind f t g Hg Hout. cbn in Hg, Hout.
  unfold interp1d_ref in Hg. fold (reals xs) in Hg.
  rewrite numbers_reals in Hg.
  destruct (numbers y) as [ys|]; [| done]. cbn in Hg.
  repeat match type of Hg with
         | (if ?b then _ else _) = _ => destruct b; [done |]
         end.
  injection Hg as <-. unfold interp1d_call. cbn. by rewrite Hout.
Qed.

Lemma stats_norm_Ok (loc scale x : R) :
  0 < scale →
  stats_norm (PNum loc) (PNum scale) (PNum x)
  = Ok (PNum (norm_pdf loc scale x)).
Proof. intros H. unfold stats_norm, on_reals3. cbn. by decide_reals. Qed.

Lemma stats_lognorm_Ok (s scale x : R) :
  0 < s → 0 < scale →
  stats_lognorm (PNum s) (PNum scale) (PNum x)
  = Ok (PNum (lognorm_pdf s scale x)).
Proof.
  intros Hs Hscale. unfold stats_lognorm, on_reals3. cbn. by decide_reals.
Qed.

Lemma norm_pdf_at_loc (loc scale : R) :
  0 < scale → norm_pdf loc scale loc = 1 / (scale * sqrt (2 * PI)).
Proof.
  intros H. pose proof sqrt_2PI_pos. unfold norm_pdf.
  replace (- ((loc - loc) / scale) ^ 2 / 2) with 0 by (field; lra).
  rewrite exp_0. field. lra.
Qed.

Lemma norm_pdf_le_peak (loc scale x : R) :
  0 < scale → norm_pdf loc scale x <= norm_pdf loc scale loc.
Proof.
  intros H. pose proof sqrt_2PI_pos as Hpi.
  rewrite norm_pdf_at_loc by done. unfold norm_pdf.
  assert (Hexp : exp (- ((x - loc) / scale) ^ 2 / 2) <= 1).
  { rewrite <- exp_0.
    destruct (Req_dec (((x - loc) / scale) ^ 2) 0) as [->|Hne].
    - replace (- 0 / 2) with 0 by lra. lra.
    - left. apply exp_increasing.
      pose proof (pow2_ge_0 ((x - loc) / scale)). lra. }
  unfold Rdiv. rewrite Rinv_mult, !Rmult_assoc.
  rewrite (Rmult_comm (/ scale)).
  apply Rmult_le_compat_r.
  - apply Rmult_le_pos; left; by apply Rinv_0_lt_compat.
  - lra.
Qed.

Lemma lognorm_pdf_at_scale (s scale : R) :
  0 < s → 0 < scale →
  lognorm_pdf s scale scale = 1 / (s * scale * sqrt (2 * PI)).
Proof.
  intros Hs Hscale. pose proof sqrt_2PI_pos. unfold lognorm_pdf.
  replace (scale / scale) with 1 by (field; lra).
  decide_reals. rewrite ln_1.
  replace (- 0 ^ 2 / (2 * s ^ 2)) with 0 by (field; lra).
  rewrite exp_0. field. lra.
Qed.

(** With [s = scale = 1] the density at [exp(-1)] is [exp(1/2)] times the
    density at [1]. *)
Lemma lognorm_pdf_above_scale :
  lognorm_pdf 1 1 1 < lognorm_pdf 1 1 (exp (-1)).
Proof.
  pose proof sqrt_2PI_pos as Hpi. pose proof (exp_pos (-1)) as Hexp.
  rewrite lognorm_pdf_at_scale by lra. unfold lognorm_pdf.
  replace (exp (-1) / 1) with (exp (-1)) by (field; lra).
  decide_reals. rewrite ln_exp.
  replace (- (-1) ^ 2 / (2 * 1 ^ 2)) with (- (1 / 2)) by (field; lra).
  replace (exp (- (1 / 2)) / (1 * exp (-1) * sqrt (2 * PI)) / 1)
    with (exp (- (1 / 2)) * / exp (-1) * / sqrt (2 * PI)) by (field; lra).
  rewrite <- exp_Ropp, <- exp_plus.
  replace (1 / (1 * 1 * sqrt (2 * PI))) with (1 * / sqrt (2 * PI))
    by (field; lra).
  apply Rmult_lt_compat_r; [by apply Rinv_0_lt_compat |].
  apply Rle_lt_trans with (exp 0); [rewrite exp_0; lra |].
  apply exp_increasing. lra.
Qed.

(** *** The Gaussians of [stat_funcs] *)

Lemma gauss_ref_Ok (x m sg : R) :
  0 < sg →
  gauss_ref (PNum x) (PNum m) (PNum sg) = Ok (PNum (gauss_pdf x m sg)).
Proof. intros H. unfold gauss_ref, on_reals3. cbn. by decide_reals. Qed.

Lemma lgauss_ref_Ok (x m sg : R) (logpdf : option bool) :
  0 < x → 0 < m → 0 < sg →
  lgauss_ref (PNum x) (PNum m) (PNum sg) logpdf
  = Ok (PNum (lgauss_pdf x m sg (default false logpdf))).
Proof.
  intros Hx Hm Hsg. unfold lgauss_ref, on_reals3. cbn. by decide_reals.
Qed.

Lemma sqrt_2PI_sq (sg : R) :
  0 < sg → sqrt (2 * PI * sg ^ 2) = sg * sqrt (2 * PI).
Proof.
  intros Hsg. pose proof PI_RGT_0.
  rewrite sqrt_mult by nra. rewrite sqrt_pow2 by lra. lra.
Qed.

(** The Gaussian is its value at the mean, scaled down by the exponential. *)
Lemma gauss_pdf_scaled (x m sg : R) :
  0 < sg →
  gauss_pdf x m sg
  = exp (- (x - m) ^ 2 / (2 * sg ^ 2)) * (1 / (sg * sqrt (2 * PI))).
Proof.
  intros Hsg. pose proof sqrt_2PI_pos. unfold gauss_pdf.
  rewrite sqrt_2PI_sq by done. field. lra.
Qed.

Lemma gauss_pdf_at_mean (m sg : R) :
  0 < sg → gauss_pdf m m sg = 1 / (sg * sqrt (2 * PI)).
Proof.
  intros Hsg. rewrite gauss_pdf_scaled by done.
  replace (- (m - m) ^ 2 / (2 * sg ^ 2)) with 0 by (field; lra).
  rewrite exp_0. lra.
Qed.

Lemma exp_neg_square_le_1 (t c : R) : 0 < c → exp (- t ^ 2 / c) <= 1.
Proof.
  intros Hc. rewrite <- exp_0 at 1.
  destruct (Req_dec t 0) as [->|Hne].
  - replace (- 0 ^ 2 / c) with 0 by (field; lra). rewrite exp_0. lra.
  - apply Rle_trans with (exp 0); [| rewrite exp_0; lra].
    left. apply exp_increasing.
    assert (0 < t ^ 2) by (apply Rdichotomy in Hne as [Hne|Hne]; nra).
    replace (- t ^ 2 / c) with (- (t ^ 2 / c)) by (field; lra).
    apply Ropp_lt_gt_0_contravar. by apply Rdiv_lt_0_compat.
Qed.

Lemma gauss_pdf_le_peak (x m sg : R) :
  0 < sg → gauss_pdf x m sg <= 1 / (sg * sqrt (2 * PI)).
Proof.
  intros Hsg. pose proof sqrt_2PI_pos as Hpi.
  rewrite gauss_pdf_scaled by done.
  assert (0 < 1 / (sg * sqrt (2 * PI))).
  { apply Rdiv_lt_0_compat; [lra | by apply Rmult_lt_0_compat]. }
  assert (exp (- (x - m) ^ 2 / (2 * sg ^ 2)) <= 1)
    by (apply exp_neg_square_le_1; nra).
  nra.
Qed.

(** Half the exponent weighs more than the whole one takes away. *)
Lemma exp_half_over_whole (T : R) : 0 < T → 1 < exp (- (T / 2)) / exp (- T).
Proof.
  intros HT. unfold Rdiv. rewrite <- exp_Ropp, <- exp_plus.
  apply Rle_lt_trans with (exp 0); [rewrite exp_0; lra |].
  apply exp_increasing. lra.
Qed.

(** The lognormal density is larger at [scale exp(-s^2)] than at [scale]. *)
Lemma lognorm_pdf_exceeds (s scale : R) :
  0 < s → 0 < scale →
  lognorm_pdf s scale scale < lognorm_pdf s scale (scale * exp (- s ^ 2)).
Proof.
  intros Hs Hscale. pose proof sqrt_2PI_pos as Hpi.
  pose proof (exp_pos (- s ^ 2)) as Hexp.
  pose proof (exp_half_over_whole (s ^ 2) ltac:(nra)) as Hgain.
  rewrite lognorm_pdf_at_scale by done. unfold lognorm_pdf.
  replace (scale * exp (- s ^ 2) / scale) with (exp (- s ^ 2))
    by (field; lra).
  decide_reals. rewrite ln_exp.
  replace (- (- s ^ 2) ^ 2 / (2 * s ^ 2)) with (- (s ^ 2 / 2))
    by (field; lra).
  replace (exp (- (s ^ 2 / 2)) / (s * exp (- s ^ 2) * sqrt (2 * PI)) / scale)
    with (exp (- (s ^ 2 / 2)) / exp (- s ^ 2)
          * (1 / (s * scale * sqrt (2 * PI)))) by (field; lra).
  assert (0 < 1 / (s * scale * sqrt (2 * PI))).
  { apply Rdiv_lt_0_compat; [lra |].
    by repeat apply Rmult_lt_0_compat. }
  nra.
Qed.

Lemma lgauss_pdf_at_mean (m sg : R) (logpdf : bool) :
  0 < sg →
  lgauss_pdf m m sg logpdf
  = if logpdf then 1 / (sg * sqrt (2 * PI))
    else 1 / (sg * sqrt (2 * PI)) / (m * ln 10).
Proof.
  intros Hsg. unfold lgauss_pdf. by rewrite gauss_pdf_at_mean.
Qed.

(** The Gaussian in log-space, per unit of [x], is larger at
    [mu exp(-(sigma ln 10)^2)] than at [mu]. *)
Lemma lgauss_pdf_exceeds (m sg : R) :
  0 < sg → 0 < m →
  lgauss_pdf m m sg false
  < lgauss_pdf (m * exp (- (sg * ln 10) ^ 2)) m sg false.
Proof.
  intros Hsg Hm. pose proof sqrt_2PI_pos as Hpi.
  assert (Hln : 0 < ln 10) by (rewrite <- ln_1; apply ln_increasing; lra).
  set (T := (sg * ln 10) ^ 2).
  assert (HT : 0 < T)
    by (subst T; apply pow_lt; by apply Rmult_lt_0_compat).
  pose proof (exp_pos (- T)) as Hexp.
  pose proof (exp_half_over_whole T HT) as Hgain.
  rewrite lgauss_pdf_at_mean by done. unfold lgauss_pdf.
  rewrite gauss_pdf_scaled by done.
  rewrite ln_mult, ln_exp by done.
  replace (- ((ln m + - T) / ln 10 - ln m / ln 10) ^ 2 / (2 * sg ^ 2))
    with (- (T / 2)) by (subst T; field; lra).
  replace (exp (- (T / 2)) * (1 / (sg * sqrt (2 * PI)))
           / (m * exp (- T) * ln 10))
    with (exp (- (T / 2)) / exp (- T)
          * (1 / (sg * sqrt (2 * PI)) / (m * ln 10))) by (field; lra).
  assert (0 < 1 / (sg * sqrt (2 * PI)) / (m * ln 10)).
  { apply Rdiv_lt_0_compat; [| by apply Rmult_lt_0_compat].
    apply Rdiv_lt_0_compat; [lra | by apply Rmult_lt_0_compat]. }
  nra.
Qed.

(** C5, amended.  Over the reals, for [sigma > 0] and with
    [peak = 1 / (sigma sqrt(2 pi))].  A [NormPrior] and a [GaussPrior]
    called at their mean return [peak], the largest value they return
    anywhere.  With [mu > 0]: a [LGaussLogPrior] called at its mean returns
    [peak] and a [LGaussLikePrior] returns [peak / (mu ln 10)], in both
    cases the largest value they return at any [x > 0]; a [LognormPrior]
    called at its mean returns [peak / mu] and a [LGaussPrior]
    [peak / (mu ln 10)], and for neither is that the largest value: each
    returns more at some [x > 0]. *)
Theorem value_at_mean (mu sigma : R) :
  0 < sigma →
  let at_mean p := (call_at_mean lib p).2 in
  let norm := NormPrior (PNum mu) (PNum sigma) in
  at_mean norm = Ok (PNum (1 / (sigma * sqrt (2 * PI))))
  ∧ (∀ x, ∃ v, (__call__ lib (PNum x) norm).2 = Ok (PNum v)
               ∧ v <= 1 / (sigma * sqrt (2 * PI)))
  ∧ (0 < mu →
       at_mean (LognormPrior (PNum mu) (PNum sigma))
       = Ok (PNum (1 / (sigma * mu * sqrt (2 * PI)))))
  ∧ (let gaussian := GaussPrior lib (PNum mu) (PNum sigma) in
     at_mean gaussian = Ok (PNum (1 / (sigma * sqrt (2 * PI))))
     ∧ ∀ x, ∃ v, (__call__ lib (PNum x) gaussian).2 = Ok (PNum v)
                 ∧ v <= 1 / (sigma * sqrt (2 * PI)))
  ∧ (0 < mu →
       let lgauss_log := LGaussLogPrior lib (PNum mu) (PNum sigma) in
       at_mean lgauss_log = Ok (PNum (1 / (sigma * sqrt (2 * PI))))
       ∧ ∀ x, 0 < x →
           ∃ v, (__call__ lib (PNum x) lgauss_log).2 = Ok (PNum v)
                ∧ v <= 1 / (sigma * sqrt (2 * PI)))
  ∧ (0 < mu →
       let lgauss_like := LGaussLikePrior lib (PNum mu) (PNum sigma) in
       at_mean lgauss_like
       = Ok (PNum (1 / (sigma * sqrt (2 * PI)) / (mu * ln 10)))
       ∧ ∀ x, 0 < x →
           ∃ v, (__call__ lib (PNum x) lgauss_like).2 = Ok (PNum v)
                ∧ v <= 1 / (sigma * sqrt (2 * PI)) / (mu * ln 10))
  ∧ (0 < mu →
       ∃ x w, 0 < x
              ∧ (__call__ lib (PNum x) (LognormPrior (PNum mu) (PNum sigma))).2
                = Ok (PNum w)
              ∧ 1 / (sigma * mu * sqrt (2 * PI)) < w)
  ∧ (0 < mu →
       let lgaussian := LGaussPrior lib (PNum mu) (PNum sigma) in
       at_mean lgaussian
       = Ok (PNum (1 / (sigma * sqrt (2 * PI)) / (mu * ln 10)))
       ∧ ∃ x w, 0 < x
                ∧ (__call__ lib (PNum x) lgaussian).2 = Ok (PNum w)
                ∧ 1 / (sigma * sqrt (2 * PI)) / (mu * ln 10) < w).
Proof.
  intros Hsigma at_mean norm. subst at_mean norm.
  pose proof sqrt_2PI_pos as Hpi.
  assert (Hln : 0 < ln 10) by (rewrite <- ln_1; apply ln_increasing; lra).
  unfold GaussPrior, LGaussLogPrior, LGaussLikePrior, LGaussPrior. run_lib.
  cbn [gauss lgauss lib].
  split; [| split; [| split; [| split; [| split; [| split; [| split]]]]]].
  - rewrite stats_norm_Ok by done. by rewrite norm_pdf_at_loc.
  - intros x. exists (norm_pdf mu sigma x).
    rewrite stats_norm_Ok by done. split; [done |].
    rewrite <- (norm_pdf_at_loc mu sigma) by done.
    by apply norm_pdf_le_peak.
  - intros Hmu. rewrite stats_lognorm_Ok by done.
    by rewrite lognorm_pdf_at_scale.
  - split.
    + rewrite gauss_ref_Ok by done. by rewrite gauss_pdf_at_mean.
    + intros x. exists (gauss_pdf x mu sigma).
      rewrite gauss_ref_Ok by done. split; [done |].
      by apply gauss_pdf_le_peak.
  - intros Hmu. split.
    + rewrite lgauss_ref_Ok by done. cbn [default].
      by rewrite lgauss_pdf_at_mean.
    + intros x Hx. exists (lgauss_pdf x mu sigma true).
      rewrite lgauss_ref_Ok by done. split; [done |].
      unfold lgauss_pdf. by apply gauss_pdf_le_peak.
  - intros Hmu. split.
    + rewrite lgauss_ref_Ok by done. cbn [default].
      by rewrite lgauss_pdf_at_mean.
    + intros x Hx. exists (lgauss_pdf mu x sigma false).
      rewrite lgauss_ref_Ok by done. split; [done |].
      unfold lgauss_pdf. apply Rmult_le_compat_r.
      * left. apply Rinv_0_lt_compat. by apply Rmult_lt_0_compat.
      * by apply gauss_pdf_le_peak.
  - intros Hmu. pose proof (exp_pos (- sigma ^ 2)).
    exists (mu * exp (- sigma ^ 2)),
      (lognorm_pdf sigma mu (mu * exp (- sigma ^ 2))).
    split; [by apply Rmult_lt_0_compat |].
    rewrite stats_lognorm_Ok by done. split; [done |].
    rewrite <- (lognorm_pdf_at_scale sigma mu) by done.
    by apply lognorm_pdf_exceeds.
  - intros Hmu. pose proof (exp_pos (- (sigma * ln 10) ^ 2)).
    assert (0 < mu * exp (- (sigma * ln 10) ^ 2))
      by by apply Rmult_lt_0_compat.
    split.
    + rewrite lgauss_ref_Ok by done. cbn [default].
      by rewrite lgauss_pdf_at_mean.
    + exists (mu * exp (- (sigma * ln 10) ^ 2)),
        (lgauss_pdf (mu * exp (- (sigma * ln 10) ^ 2)) mu sigma false).
      split; [done |].
      rewrite lgauss_ref_Ok by done. split; [done |].
      pose proof (lgauss_pdf_exceeds mu sigma Hsigma Hmu) as Hex.
      by rewrite lgauss_pdf_at_mean in Hex.
Qed.

Lemma value_at_mean_witness :
  0 < 1
  ∧ (call_at_mean lib (NormPrior (PNum 0) (PNum 1))).2
    = Ok (PNum (1 / (1 * sqrt (2 * PI)))).
Proof.
  split; [lra |]. apply (proj1 (value_at_mean 0 1 ltac:(lra))).
Defined.

(** A [LognormPrior] with [mu = sigma = 1] returns more at [exp(-1)] than
    at its mean. *)
Lemma lognorm_mean_is_not_the_peak :
  let p := LognormPrior (PNum 1) (PNum 1) in
  ∃ v w, (call_at_mean lib p).2 = Ok (PNum v)
         ∧ (__call__ lib (PNum (exp (-1))) p).2 = Ok (PNum w)
         ∧ v < w.
Proof.
  exists (lognorm_pdf 1 1 1), (lognorm_pdf 1 1 (exp (-1))). run_lib.
  rewrite !stats_lognorm_Ok by lra.
  split; [done | split; [done |]]. apply lognorm_pdf_above_scale.
Qed.

(** *** The factory at work *)

Lemma factory_mean_sigma_witness :
  functype_of d_gauss = PStr "gauss"
  ∧ create_prior_functor lib d_gauss
    = (delete "functype" d_gauss, Ok (GaussPrior lib (PNum 1) (PNum 2)))
  ∧ ∃ mu sg, d_gauss !! "mu" = Some mu ∧ d_gauss !! "sigma" = Some sg
             ∧ mean lib (GaussPrior lib (PNum 1) (PNum 2))
               = (GaussPrior lib (PNum 1) (PNum 2), Ok mu)
             ∧ sigma (GaussPrior lib (PNum 1) (PNum 2))
               = (GaussPrior lib (PNum 1) (PNum 2), Ok sg).
Proof.
  split; [reflexivity | split; [reflexivity |]].
  apply (proj1 (factory_mean_sigma lib d_gauss "gauss" _ _
                  eq_refl eq_refl)).
  unfold parametric. repeat constructor.
Defined.

(** With [functype = 'interp'] the dictionary's own [mu] and [sigma] are
    not what the prior returns. *)
Lemma interp_mean_is_the_tables :
  ∃ p, (create_prior_functor lib d_interp).2 = Ok p
       ∧ d_interp !! "mu" = Some (PNum 5)
       ∧ d_interp !! "sigma" = Some (PNum 2)
       ∧ (mean lib p).2 = Ok (PNum 1)
       ∧ (sigma p).2 = Ok (PNum (1 / 2))
       ∧ (mean lib p).2 ≠ Ok (PNum 5)
       ∧ (sigma p).2 ≠ Ok (PNum 2).
Proof.
  eexists. repeat split; try reflexivity.
  - intros [= H]. lra.
  - intros [= H]. lra.
Qed.

Lemma unrecognized_functype_witness :
  functype_of d_uniform = PStr "uniform"
  ∧ (create_prior_functor lib d_uniform).2
    = Err (KeyError "Unrecognized prior_functor type uniform").
Proof.
  split; [reflexivity |].
  apply (proj1 (unrecognized_functype_raises lib d_uniform "uniform"
                  eq_refl)).
  apply (bool_decide_unpack _). vm_compute. exact I.
Defined.

Lemma log_value_witness :
  let p := NormPrior (PNum 0) (PNum 1) in
  dedicated_log_form p = None
  ∧ (log_value lib (PNum 0) p).2 = (__call__ lib (PNum 0) p).2 ≫= log.
Proof.
  split; [reflexivity |].
  apply (proj1 (log_value_spec lib (NormPrior (PNum 0) (PNum 1)) (PNum 0))
           eq_refl).
Defined.

Lemma factory_errors_witness :
  functype_of d_no_mu = PStr "gauss"
  ∧ d_no_mu !! "mu" = None
  ∧ (create_prior_functor lib d_no_mu).2 = Err (KeyError "mu").
Proof.
  split; [reflexivity | split; [reflexivity |]].
  apply (proj1 (factory_errors_propagate lib d_no_mu "gauss" eq_refl)).
  - unfold by_lookup. repeat constructor.
  - reflexivity.
Defined.

Lemma default_functype_witness :
  d_default !! "functype" = None
  ∧ d_default !! "mu" = Some (PNum 1)
  ∧ d_default !! "sigma" = Some (PNum 2)
  ∧ create_prior_functor lib d_default
    = (d_default, Ok (LGaussLikePrior lib (PNum 1) (PNum 2))).
Proof.
  split; [reflexivity | split; [reflexivity | split; [reflexivity |]]].
  apply (proj1 (default_functype_is_lgauss_like lib d_default
                  (PNum 1) (PNum 2) eq_refl eq_refl eq_refl)).
Defined.

(** A dictionary with no key at all has no [functype], and the factory
    raises. *)
Lemma default_functype_needs_mu :
  (∅ : dict R) !! "functype" = None
  ∧ create_prior_functor lib ∅ = (∅, Err (KeyError "mu")).
Proof. split; reflexivity. Qed.

(** *** Tables *)

Lemma outside_3 : outside ltb [0; 1; 2] 3 = true.
Proof. unfold outside, ltb. cbn. by decide_reals. Qed.

Lemma outside_2 : outside ltb [0; 1] 2 = true.
Proof. unfold outside, ltb. cbn. by decide_reals. Qed.

Lemma tabulated_prior_fill_value_witness :
  ∃ table p,
    interp1d_fills lib
    ∧ yaml_load lib (PStr "prior.yaml") = Ok table
    ∧ FileFuncPrior lib (PStr "prior.yaml") = Ok p
    ∧ table !! "x" = Some (reals [0; 1; 2])
    ∧ dict_get table "fill_value" (PNum (num_of_Z lib 0)) = PNum 7
    ∧ outside (num_ltb lib) [0; 1; 2] 3 = true
    ∧ __call__ lib (PNum 3) p = (p, Ok (PNum 7)).
Proof.
  do 2 eexists.
  split; [exact lib_interp1d_fills |].
  split; [reflexivity |]. split; [reflexivity |].
  split; [reflexivity |]. split; [reflexivity |].
  split; [exact outside_3 |].
  exact (tabulated_prior_fill_value lib (PStr "prior.yaml") _ _ [0; 1; 2]
           7 3 lib_interp1d_fills eq_refl eq_refl eq_refl eq_refl
           outside_3).
Defined.

(** A table may ask for extrapolation in place of a fill value; the prior
    then continues the last segment outside the data range. *)
Lemma extrapolating_table_does_not_fill :
  let p := extrapolating_prior in
  ∃ table,
    yaml_load lib (PStr "extrapolate.yaml") = Ok table
    ∧ FileFuncPrior lib (PStr "extrapolate.yaml") = Ok p
    ∧ table !! "x" = Some (reals [0; 1])
    ∧ dict_get table "fill_value" (PNum (num_of_Z lib 0))
      = PStr "extrapolate"
    ∧ outside (num_ltb lib) [0; 1] 2 = true
    ∧ __call__ lib (PNum 2) p = (p, Ok (PNum 2))
    ∧ (__call__ lib (PNum 2) p).2 ≠ Ok (PStr "extrapolate").
Proof.
  intros p. eexists.
  split; [reflexivity |]. split; [reflexivity |].
  split; [reflexivity |]. split; [reflexivity |].
  split; [exact outside_2 |].
  assert (Hcall : __call__ lib (PNum 2) p = (p, Ok (PNum 2))).
  { change (__call__ lib (PNum 2) p)
      with (p, interp1d_call [0; 1] [0; 1] false extrapolate (PNum 2)).
    f_equal. unfold interp1d_call. cbn.
    case_decide as Hsorted;
      [| exfalso; apply Hsorted; unfold by_x; cbn; lra].
    cbn. rewrite (bool_decide_eq_false_2 (2 <= 1)) by lra.
    rewrite (bool_decide_eq_true_2 (0%nat = 0%nat)) by done. cbn.
    do 2 f_equal. field. }
  split; [done |]. by rewrite Hcall.
Qed.
End RealFacts.

(** ** The factory and the classes *)

Section FactoryAndClasses.
Context {num : Type} (L : library num).
Implicit Types (d : dict num) (p : prior num) (ft : string).

(** X1.  For the types whose branch looks [mu] and [sigma] up, the factory
    returns a prior exactly when the dictionary holds both, whatever else
    it holds.  The prior is named after the type, has that mean and that
    width, and evaluates as the type says: [gauss] and [lngauss] for
    [gauss]; [lgauss] and [lnlgauss] for [lgauss]; the same two with mean
    and argument exchanged for [lgauss_like] and [lgauss_lik]; and with
    [logpdf=True] for [lgauss_log]. *)
Theorem lookup_branches_build_the_prior d ft :
  functype_of d = PStr ft →
  ft ∈ by_lookup →
  let r := (create_prior_functor L d).2 in
  ((∃ p, r = Ok p) ↔ is_Some (d !! "mu") ∧ is_Some (d !! "sigma"))
  ∧ ∀ mu sg, d !! "mu" = Some mu → d !! "sigma" = Some sg →
      ∃ p, r = Ok p
           ∧ funcname p = (p, Ok (PStr ft))
           ∧ mean L p = (p, Ok mu)
           ∧ sigma p = (p, Ok sg)
           ∧ ∀ x,
               (ft = "gauss" →
                  __call__ L x p = (p, gauss L x mu sg)
                  ∧ log_value L x p = (p, lngauss L x mu sg))
               ∧ (ft = "lgauss" →
                    __call__ L x p = (p, lgauss L x mu sg None)
                    ∧ log_value L x p = (p, lnlgauss L x mu sg None))
               ∧ (ft = "lgauss_like" ∨ ft = "lgauss_lik" →
                    __call__ L x p = (p, lgauss L mu x sg None)
                    ∧ log_value L x p = (p, lnlgauss L mu x sg None))
               ∧ (ft = "lgauss_log" →
                    __call__ L x p = (p, lgauss L x mu sg (Some true))
                    ∧ log_value L x p = (p, lnlgauss L x mu sg (Some true))).
Proof.
  intros Hft Hin r. subst r.
  pose proof (create_prior_functor_branch L d ft Hft) as Hr.
  set (d' := delete "functype" d) in Hr.
  assert (Hmu : d' !! "mu" = d !! "mu") by by apply lookup_popped.
  assert (Hsg : d' !! "sigma" = d !! "sigma") by by apply lookup_popped.
  assert (Hbuild : ∀ v fn lnfn,
            ((∃ p, function_prior_of d' v fn lnfn = Ok p)
               ↔ is_Some (d !! "mu") ∧ is_Some (d !! "sigma"))
            ∧ ∀ mu sg, d !! "mu" = Some mu → d !! "sigma" = Some sg →
                function_prior_of d' v fn lnfn
                = Ok (FunctionPrior v mu sg fn (Some lnfn))).
  { intros v fn lnfn. unfold function_prior_of, getitem.
    rewrite Hmu, Hsg. split.
    - destruct (d !! "mu") as [mu|], (d !! "sigma") as [sg|]; cbn; split;
        try (intros [p Hp]; discriminate Hp);
        try (intros [[? ?] [? ?]]; discriminate); eauto.
    - by intros mu sg -> ->. }
  unfold by_lookup in Hin. rewrite !elem_of_cons, elem_of_nil in Hin.
  destruct Hin as [->|[->|[->|[->|[->|[]]]]]];
    eval_dispatch Hr; rewrite Hr;
    (split; [apply Hbuild |]);
    intros mu sg Hm Hs;
    (eexists; split; [by apply Hbuild |]);
    (split; [reflexivity |]); (split; [reflexivity |]);
    (split; [reflexivity |]);
    intros x; (split; [| split; [| split]]); intros Heq;
    first [ discriminate Heq
          | destruct Heq as [Heq|Heq]; discriminate Heq
          | split; reflexivity ].
Qed.

(** X3.  When [functype] holds a value that is not a string, the factory
    pops it and raises the [KeyError] of an unrecognised type, its message
    ending in [str] of that value. *)
Theorem non_string_functype_raises d (v : pyval num) :
  d !! "functype" = Some v →
  (∀ s, v ≠ PStr s) →
  create_prior_functor L d
  = (delete "functype" d,
     Err (KeyError ("Unrecognized prior_functor type " ++ py_str L v))).
Proof.
  intros Hv Hns. unfold create_prior_functor, dict_pop. run_M.
  unfold dict_get. rewrite Hv.
  destruct v; try reflexivity. by destruct (Hns s).
Qed.



(** X5.  The prior the factory returns is named after its type, except for
    [interp], whose prior is named [file]; and [file] is itself no type the
    factory knows, so that name does not lead back to the prior. *)
Theorem funcname_of_built_prior d ft d' p :
  functype_of d = PStr ft →
  create_prior_functor L d = (d', Ok p) →
  (ft ∈ parametric → funcname p = (p, Ok (PStr ft)))
  ∧ (ft = "interp" → funcname p = (p, Ok (PStr "file")))
  ∧ ∀ d2, functype_of d2 = PStr "file" →
      (create_prior_functor L d2).2
      = Err (KeyError "Unrecognized prior_functor type file").
Proof.
  intros Hft Hcreate.
  pose proof (create_prior_functor_branch L d ft Hft) as Hr.
  rewrite Hcreate in Hr. simpl in Hr. symmetry in Hr.
  set (d0 := delete "functype" d) in Hr. clearbody d0.
  split; [| split].
  - intros Hin. unfold parametric in Hin.
    rewrite !elem_of_cons, elem_of_nil in Hin.
    destruct Hin as [->|[->|[->|[->|[->|[->|[->|[]]]]]]]];
      eval_dispatch Hr;
      first [ apply construct_kw_Ok in Hr as (mu & sg & ? & ? & ->)
            | apply function_prior_of_Ok in Hr as (mu & sg & ? & ? & ->) ];
      reflexivity.
  - intros ->. eval_dispatch Hr.
    apply bind_Ok in Hr as (f & _ & Hr).
    by apply FileFuncPrior_Ok in Hr
      as (? & ? & ? & ? & ? & ? & ? & ? & ? & ? & ? & ? & ->).
  - intros d2 Hd2.
    pose proof (create_prior_functor_branch L d2 "file" Hd2) as Hr2.
    by eval_dispatch Hr2.
Qed.

(** No key of the dictionary falls outside the parameters. *)
Lemma no_extra_keyword d (params : list string) :
  filter (λ k, k ∉ params) (dom d) = ∅
  ↔ ∀ k, is_Some (d !! k) → k ∈ params.
Proof.
  split.
  - intros Hnone k Hk. destruct (decide (k ∈ params)) as [|Hout]; [done |].
    assert (Hin : k ∈ filter (λ k, k ∉ params) (dom d)).
    { apply elem_of_filter. split; [done | by apply elem_of_dom]. }
    rewrite Hnone in Hin. by apply elem_of_empty in Hin.
  - intros Hall. apply set_eq. intros k.
    rewrite elem_of_filter, elem_of_dom. split.
    + intros [Hout Hk]. destruct Hout. by apply Hall.
    + intros Hk. by apply elem_of_empty in Hk.
Qed.

Lemma construct_kw_exact (cls : pyval num → pyval num → prior num) d mu sg :
  d !! "mu" = Some mu → d !! "sigma" = Some sg →
  (∀ k, is_Some (d !! k) → k ∈ ["mu"; "sigma"]) →
  construct_kw cls d = Ok (cls mu sg).
Proof.
  intros Hmu Hsg Hall. unfold construct_kw, bind_kwargs.
  rewrite decide_True by by apply no_extra_keyword.
  cbn. by rewrite Hmu, Hsg.
Qed.

Lemma construct_kw_rejected (cls : pyval num → pyval num → prior num) d k :
  is_Some (d !! k) → k ∉ ["mu"; "sigma"] →
  ∃ why, construct_kw cls d = Err (TypeError why).
Proof.
  intros Hk Hout. unfold construct_kw, bind_kwargs.
  exists (rejected_keyword (filter (λ k, k ∉ ["mu"; "sigma"]) (dom d))).
  rewrite decide_False; [done |].
  intros Hnone. apply Hout. by apply (no_extra_keyword d).
Qed.

(** X2.  [norm] and [lognorm] hand the popped dictionary to the class as
    keyword arguments, so it must hold [mu] and [sigma] and nothing else:
    then the factory returns [NormPrior(mu, sigma)], respectively
    [LognormPrior(mu, sigma)]; with any further key the call raises
    [TypeError].  The factory returns a prior in no other case. *)
Theorem norm_takes_mu_and_sigma_only d ft :
  functype_of d = PStr ft →
  ft ∈ ["norm"; "lognorm"] →
  let r := (create_prior_functor L d).2 in
  let cls := if bool_decide (ft = "norm") then NormPrior else LognormPrior in
  let no_other := ∀ k, is_Some (d !! k) → k ∈ ["functype"; "mu"; "sigma"] in
  (∀ mu sg, d !! "mu" = Some mu → d !! "sigma" = Some sg → no_other →
     r = Ok (cls mu sg))
  ∧ (∀ k, is_Some (d !! k) → k ∉ ["functype"; "mu"; "sigma"] →
       ∃ why, r = Err (TypeError why))
  ∧ ((∃ p, r = Ok p)
     ↔ is_Some (d !! "mu") ∧ is_Some (d !! "sigma") ∧ no_other).
Proof.
  intros Hft Hin r cls no_other.
  set (d' := delete "functype" d).
  assert (Hr : r = construct_kw cls d').
  { subst r cls. rewrite (create_prior_functor_branch L d ft Hft).
    rewrite !elem_of_cons, elem_of_nil in Hin.
    by destruct Hin as [->|[->|[]]]. }
  assert (Hmu : d' !! "mu" = d !! "mu") by by apply lookup_popped.
  assert (Hsg : d' !! "sigma" = d !! "sigma") by by apply lookup_popped.
  assert (Hkeys : no_other ↔ ∀ k, is_Some (d' !! k) → k ∈ ["mu"; "sigma"]).
  { subst no_other d'. split.
    - intros Hall k Hk. destruct (decide (k = "functype")) as [->|Hne].
      + rewrite lookup_delete_eq in Hk. by destruct Hk.
      + rewrite lookup_delete_ne in Hk by done.
        specialize (Hall k Hk). rewrite elem_of_cons in Hall.
        by destruct Hall.
    - intros Hall k Hk. destruct (decide (k = "functype")) as [->|Hne].
      + by left.
      + right. apply Hall. by rewrite lookup_delete_ne. }
  rewrite Hr. clear Hr r. split; [| split].
  - intros mu sg Hm Hs Hno. apply construct_kw_exact.
    + by rewrite Hmu.
    + by rewrite Hsg.
    + by apply Hkeys.
  - intros k Hk Hout. apply (construct_kw_rejected cls d' k).
    + subst d'. rewrite lookup_delete_ne; [done |].
      intros <-. apply Hout. by left.
    + intros Hin'. apply Hout. by right.
  - split.
    + intros [p Hp]. pose proof Hp as Hp'.
      apply construct_kw_Ok in Hp' as (mu & sg & Hm & Hs & _).
      rewrite <- Hmu, <- Hsg, Hm, Hs. split; [done | split; [done |]].
      apply Hkeys. apply no_extra_keyword.
      unfold construct_kw, bind_kwargs in Hp.
      by case_decide.
    + intros ([mu Hm] & [sg Hs] & Hno). exists (cls mu sg).
      apply construct_kw_exact.
      * by rewrite Hmu.
      * by rewrite Hsg.
      * by apply Hkeys.
Qed.
End FactoryAndClasses.


(** ** What the classes inherit and share *)

Section Inherited.
Context {num : Type} (L : library num).
Implicit Types (p q : prior num) (x : pyval num).

(** Only [FunctionPrior] overrides [normalization]: on an instance of
    any other class it returns 1, whatever the parameters or the table, and
    [normalization_range] is [(0, inf)] on every instance. *)
Lemma inherited_normalization p :
  normalization_range L p = (p, Ok (PNum (num_of_Z L 0), PInf))
  ∧ (class_name p ≠ "FunctionPrior" →
       normalization L p = (p, Ok (PNum (num_of_Z L 1))))
  ∧ ∀ filename q, FileFuncPrior L filename = Ok q →
      normalization L q = (q, Ok (PNum (num_of_Z L 1))).
Proof.
  split; [done | split].
  - intros Hcls. by destruct p.
  - intros filename q Hq.
    by apply FileFuncPrior_Ok in Hq
      as (? & ? & ? & ? & ? & ? & ? & ? & ? & ? & ? & ? & ->).
Qed.

(** X6.  A bare [PriorFunctor] is abstract in all but name: [mean()] is 1
    and [normalization()] is 1, but [sigma()] raises [NotImplementedError],
    calling the instance raises [TypeError] (it is not callable),
    [log_value], which looks [__call__] up on the instance, raises
    [AttributeError], and [profile_bins()] never returns (it raises what
    [np.log10] raised, or else the [NotImplementedError] of [sigma()]). *)
Theorem bare_PriorFunctor_is_abstract (fname : pyval num) x :
  let p := PriorFunctor fname in
  let not_implemented :=
    NotImplementedError
      "prior_functor.sigma must be implemented by sub-class" in
  mean L p = (p, Ok (PNum (num_of_Z L 1)))
  ∧ normalization L p = (p, Ok (PNum (num_of_Z L 1)))
  ∧ sigma p = (p, Err not_implemented)
  ∧ call_instance L x p = (p, Err (TypeError (not_callable "PriorFunctor")))
  ∧ log_value L x p = (p, Err (AttributeError "PriorFunctor" "__call__"))
  ∧ (∀ v, (profile_bins L p).2 ≠ Ok v)
  ∧ (∀ v, np_log10 L (PNum (num_of_Z L 1)) = Ok v →
       profile_bins L p = (p, Err not_implemented)).
Proof.
  intros p not_implemented. repeat split; try reflexivity.
  - intros v. unfold profile_bins, mean, sigma. run_M.
    by destruct (np_log10 L (PNum (num_of_Z L 1))).
  - intros v Hv. unfold profile_bins, mean, sigma. run_M. by rewrite Hv.
Qed.

(** X7.  The bins are functions of [mean()] and [sigma()] alone: two
    instances that store the same mu get the same marginalization bins,
    and with the same sigma as well the same profile bins, be they of
    different classes or built around different functions or tables. *)
Theorem bins_depend_on_mean_and_sigma p q :
  stored_mu p = stored_mu q →
  ((marginalization_bins L p).2 = (marginalization_bins L q).2)
  ∧ (stored_sigma p = stored_sigma q →
       (profile_bins L p).2 = (profile_bins L q).2).
Proof.
  intros Hmu.
  assert (Hmean : (mean L p).2 = (mean L q).2).
  { destruct p, q; simpl in Hmu; by simplify_eq. }
  split.
  - unfold marginalization_bins. run_M.
    pose proof (mean_read_only L p) as Hp.
    pose proof (mean_read_only L q) as Hq.
    destruct (mean L p) as [p' rp], (mean L q) as [q' rq].
    simpl in *. subst. destruct rq as [m|e]; [| done].
    destruct (np_log10 L m) as [lm|]; cbn; [| done].
    destruct (py_add L (PNum (num_of_Z L (-1))) lm); cbn; [| done].
    by destruct (py_add L (PNum (num_of_Z L 1)) lm).
  - intros Hsg.
    assert (Hsigma : (sigma p).2 = (sigma q).2).
    { destruct p, q; simpl in Hsg, Hmu; by simplify_eq. }
    unfold profile_bins. run_M.
    pose proof (mean_read_only L p) as Hp.
    pose proof (mean_read_only L q) as Hq.
    destruct (mean L p) as [p' rp], (mean L q) as [q' rq].
    simpl in *. subst. destruct rq as [m|e]; [| done].
    destruct (np_log10 L m) as [lm|]; cbn; [| done].
    pose proof (sigma_read_only p) as Hp.
    pose proof (sigma_read_only q) as Hq.
    destruct (sigma p) as [p' rp], (sigma q) as [q' rq].
    simpl in *. subst. destruct rq as [s|e]; [| done].
    destruct (py_mul L (PNum (num_of_Z L 5)) s) as [w|]; cbn; [| done].
    destruct (py_max L w (PNum (num_of_Z L 3))) as [hw|]; cbn; [| done].
    destruct (py_sub L lm hw); cbn; [| done].
    by destruct (py_add L lm hw).
Qed.

(** X9.  A [FileFuncPrior] that was constructed is named [file], remembers
    the file name it was given, and stores the interpolant that [interp1d]
    builds with [bounds_error=False] from the [x], [y], [kind] and
    [fill_value] it stores; [kind] is ['linear'] and [fill_value] 0 unless
    the table says otherwise.  No operation on the instance ends that. *)
Theorem FileFuncPrior_is_consistent (filename : pyval num) (table : dict num)
    p (ops : list (operation (num:=num))) :
  yaml_load L filename = Ok table →
  FileFuncPrior L filename = Ok p →
  table_consistent L p
  ∧ table_consistent L (foldl (λ q o, state_after L o q) p ops)
  ∧ ∃ mu sg xs ys g,
      p = FileFuncPrior_obj (PStr "file") filename mu sg xs ys
            (dict_get table "kind" (PStr "linear"))
            (dict_get table "fill_value" (PNum (num_of_Z L 0))) g
      ∧ table !! "mean" = Some mu ∧ table !! "sigma" = Some sg
      ∧ table !! "x" = Some xs ∧ table !! "y" = Some ys.
Proof.
  intros Hload Hp.
  apply FileFuncPrior_Ok in Hp
    as (table' & mu & sg & xs & ys & g & Hload' & ? & ? & ? & ? & Hg & ->).
  rewrite Hload in Hload'. injection Hload' as <-.
  assert (Hfold : ∀ q, foldl (λ q o, state_after L o q) q ops = q).
  { induction ops as [|o ops IH] using rev_ind; [done |].
    intros q. by rewrite foldl_app; simpl; rewrite IH, state_after_id. }
  rewrite Hfold. split; [done | split; [done |]].
  by exists mu, sg, xs, ys, g.
Qed.
End Inherited.

(** ** The bins and the densities, over the reals *)

Module RealBins.
Import RealLib RealFacts.
#[local] Open Scope R_scope.

Lemma ln_10_pos : 0 < ln 10.
Proof. rewrite <- ln_1. apply ln_increasing; lra. Qed.

(** [10 ^ (log10 m + k) = m * 10 ^ k] *)
Lemma Rpower_10_log10 (m k : R) :
  0 < m → Rpower 10 (ln m / ln 10 + k) = m * Rpower 10 k.
Proof.
  intros Hm. pose proof ln_10_pos. rewrite Rpower_plus. f_equal.
  unfold Rpower. replace (ln m / ln 10 * ln 10) with (ln m) by (field; lra).
  by apply exp_ln.
Qed.

Lemma mean_stored (p : prior R) v :
  stored_mu p = Some v → mean lib p = (p, Ok v).
Proof. destruct p; simpl; intros [= <-]; reflexivity. Qed.

Lemma sigma_stored (p : prior R) v :
  stored_sigma p = Some v → sigma p = (p, Ok v).
Proof. destruct p; simpl; intros [= <-]; reflexivity. Qed.

Lemma INR_const (n : nat) (z : Z) : Z.of_nat n = z → INR n = IZR z.
Proof. intros <-. apply INR_IZR_INZ. Qed.

(** The [i]-th of [n] samples of [np.logspace(lo, hi, n)]. *)
Lemma logspace_Ok (lo hi : R) (n : Z) :
  logspace (PNum lo) (PNum hi) n
  = Ok (reals ((λ i, Rpower 10 (lo + INR i * (hi - lo) / (IZR n - 1)))
                 <$> seq 0 (Z.to_nat n))).
Proof. unfold logspace, reals. cbn. by rewrite <- list_fmap_compose. Qed.

(** X10.  Over the reals, for an instance whose mean is [m > 0],
    [marginalization_bins()] returns 1001 edges that run over two decades
    centred on the mean: the first is [m / 10], the middle one [m] and the
    last [10 m]. *)
Theorem marginalization_bins_span_two_decades (p : prior R) (m : R) :
  stored_mu p = Some (PNum m) →
  0 < m →
  ∃ edges,
    marginalization_bins lib p = (p, Ok (reals edges))
    ∧ length edges = 1001%nat
    ∧ edges !! 0%nat = Some (m / 10)
    ∧ edges !! 500%nat = Some m
    ∧ edges !! 1000%nat = Some (10 * m).
Proof.
  intros Hmu Hm. pose proof ln_10_pos as Hln.
  set (lm := ln m / ln 10).
  set (f := λ i : nat,
         Rpower 10 (-1 + lm + INR i * (1 + lm - (-1 + lm)) / (1001 - 1))).
  exists (f <$> seq 0 1001).
  assert (Hrun : marginalization_bins lib p
                 = (p, Ok (reals (f <$> seq 0 1001)))).
  { unfold marginalization_bins.
    cbv [mbind M_bind lift]. rewrite (mean_stored p _ Hmu).
    cbn [np_log10 py_add np_logspace lib num_of_Z].
    unfold log10, arith. cbn [as_real mbind result_bind mret result_ret].
    decide_reals. cbv beta iota.
    cbn [as_real mbind result_bind mret result_ret].
    fold lm. by rewrite logspace_Ok. }
  assert (Hat : ∀ i : nat, (i < 1001)%nat →
            (f <$> seq 0 1001) !! i = Some (f i)).
  { intros i Hi. by rewrite list_lookup_fmap, lookup_seq_lt. }
  split; [done |]. split; [by rewrite length_fmap, length_seq |].
  rewrite !Hat by lia. unfold f, lm.
  rewrite (INR_const 0 0), (INR_const 500 500), (INR_const 1000 1000) by done.
  repeat split; f_equal.
  - replace (-1 + ln m / ln 10
             + 0 * (1 + ln m / ln 10 - (-1 + ln m / ln 10)) / (1001 - 1))
      with (ln m / ln 10 + - (1)) by (field; lra).
    rewrite Rpower_10_log10, Rpower_Ropp, Rpower_1 by lra. field.
  - replace (-1 + ln m / ln 10
             + 500 * (1 + ln m / ln 10 - (-1 + ln m / ln 10)) / (1001 - 1))
      with (ln m / ln 10 + 0) by (field; lra).
    rewrite Rpower_10_log10, Rpower_O by lra. lra.
  - replace (-1 + ln m / ln 10
             + 1000 * (1 + ln m / ln 10 - (-1 + ln m / ln 10)) / (1001 - 1))
      with (ln m / ln 10 + 1) by (field; lra).
    rewrite Rpower_10_log10, Rpower_1 by lra. lra.
Qed.

Lemma marginalization_bins_witness :
  stored_mu (NormPrior (PNum 2) (PNum 1)) = Some (PNum 2)
  ∧ 0 < 2
  ∧ ∃ edges,
      marginalization_bins lib (NormPrior (PNum 2) (PNum 1))
      = (NormPrior (PNum 2) (PNum 1), Ok (reals edges))
      ∧ length edges = 1001%nat
      ∧ edges !! 0%nat = Some (2 / 10)
      ∧ edges !! 500%nat = Some 2
      ∧ edges !! 1000%nat = Some (10 * 2).
Proof.
  split; [reflexivity | split; [lra |]].
  apply (marginalization_bins_span_two_decades
           (NormPrior (PNum 2) (PNum 1)) 2 eq_refl).
  lra.
Defined.

(** X11.  Over the reals, for an instance with mean [m > 0] and width
    [sigma], [profile_bins()] returns 101 edges centred on the mean that
    reach [w = max(5 sigma, 3)] decades to either side, so never less than
    three: the first is [m / 10^w], the middle one [m] and the last
    [m 10^w]. *)
Theorem profile_bins_span (p : prior R) (m sg : R) :
  stored_mu p = Some (PNum m) →
  stored_sigma p = Some (PNum sg) →
  0 < m →
  ∃ w edges,
    profile_bins lib p = (p, Ok (reals edges))
    ∧ w = Rmax (5 * sg) 3
    ∧ 3 <= w
    ∧ length edges = 101%nat
    ∧ edges !! 0%nat = Some (m / Rpower 10 w)
    ∧ edges !! 50%nat = Some m
    ∧ edges !! 100%nat = Some (m * Rpower 10 w).
Proof.
  intros Hmu Hsg Hm. pose proof ln_10_pos as Hln.
  set (lm := ln m / ln 10).
  set (w := if bool_decide (5 * sg < 3) then 3 else 5 * sg).
  assert (Hw : w = Rmax (5 * sg) 3).
  { subst w. case_bool_decide.
    - by rewrite Rmax_right by lra.
    - by rewrite Rmax_left by lra. }
  set (f := λ i : nat,
         Rpower 10 (lm - w + INR i * (lm + w - (lm - w)) / (101 - 1))).
  exists w, (f <$> seq 0 101).
  assert (Hrun : profile_bins lib p = (p, Ok (reals (f <$> seq 0 101)))).
  { unfold profile_bins.
    cbv [mbind M_bind lift]. rewrite (mean_stored p _ Hmu).
    cbn [np_log10 py_add py_sub py_mul py_max np_logspace lib num_of_Z].
    unfold log10. cbn [as_real mbind result_bind mret result_ret].
    decide_reals. cbv beta iota. rewrite (sigma_stored p _ Hsg).
    unfold arith, max_. cbn [as_real mbind result_bind mret result_ret].
    fold lm w. by rewrite logspace_Ok. }
  assert (Hat : ∀ i : nat, (i < 101)%nat →
            (f <$> seq 0 101) !! i = Some (f i)).
  { intros i Hi. by rewrite list_lookup_fmap, lookup_seq_lt. }
  split; [done |]. split; [done |].
  split; [rewrite Hw; apply Rmax_r |].
  split; [by rewrite length_fmap, length_seq |].
  rewrite !Hat by lia. unfold f, lm. clearbody w.
  rewrite (INR_const 0 0), (INR_const 50 50), (INR_const 100 100) by done.
  repeat split; f_equal.
  - replace (ln m / ln 10 - w
             + 0 * (ln m / ln 10 + w - (ln m / ln 10 - w)) / (101 - 1))
      with (ln m / ln 10 + - w) by (field; lra).
    by rewrite Rpower_10_log10, Rpower_Ropp.
  - replace (ln m / ln 10 - w
             + 50 * (ln m / ln 10 + w - (ln m / ln 10 - w)) / (101 - 1))
      with (ln m / ln 10 + 0) by (field; lra).
    rewrite Rpower_10_log10, Rpower_O by lra. lra.
  - replace (ln m / ln 10 - w
             + 100 * (ln m / ln 10 + w - (ln m / ln 10 - w)) / (101 - 1))
      with (ln m / ln 10 + w) by (field; lra).
    by rewrite Rpower_10_log10.
Qed.

Lemma profile_bins_witness :
  stored_mu (NormPrior (PNum 2) (PNum 1)) = Some (PNum 2)
  ∧ stored_sigma (NormPrior (PNum 2) (PNum 1)) = Some (PNum 1)
  ∧ 0 < 2
  ∧ ∃ w edges,
      profile_bins lib (NormPrior (PNum 2) (PNum 1))
      = (NormPrior (PNum 2) (PNum 1), Ok (reals edges))
      ∧ w = Rmax (5 * 1) 3
      ∧ 3 <= w
      ∧ length edges = 101%nat
      ∧ edges !! 0%nat = Some (2 / Rpower 10 w)
      ∧ edges !! 50%nat = Some 2
      ∧ edges !! 100%nat = Some (2 * Rpower 10 w).
Proof.
  split; [reflexivity | split; [reflexivity | split; [lra |]]].
  apply (profile_bins_span (NormPrior (PNum 2) (PNum 1)) 2 1 eq_refl eq_refl).
  lra.
Defined.

(** X12.  Over the reals, for [sigma > 0] and [mu > 0]: the density of a
    [LognormPrior] per unit of [ln x], that is [x] times what the prior
    returns at [x], is at most [1 / (sigma sqrt(2 pi))] for every [x > 0]
    and takes that value at [x = mean()]. *)
Theorem lognorm_peaks_at_mean_in_log_space (mu sg x : R) :
  0 < sg → 0 < mu → 0 < x →
  let p := LognormPrior (PNum mu) (PNum sg) in
  ∃ v vm,
    __call__ lib (PNum x) p = (p, Ok (PNum v))
    ∧ call_at_mean lib p = (p, Ok (PNum vm))
    ∧ x * v <= mu * vm
    ∧ mu * vm = 1 / (sg * sqrt (2 * PI)).
Proof.
  intros Hsg Hmu Hx p. pose proof sqrt_2PI_pos as Hpi.
  exists (lognorm_pdf sg mu x), (lognorm_pdf sg mu mu). subst p. run_lib.
  rewrite !stats_lognorm_Ok by done.
  split; [done | split; [done |]].
  assert (Hat : ∀ t, 0 < t →
            t * lognorm_pdf sg mu t
            = exp (- ln (t / mu) ^ 2 / (2 * sg ^ 2)) * / (sg * sqrt (2 * PI))).
  { intros t Ht. unfold lognorm_pdf.
    assert (0 < t / mu) by by apply Rdiv_lt_0_compat.
    decide_reals. field. lra. }
  rewrite !Hat by done.
  replace (mu / mu) with 1 by (field; lra). rewrite ln_1.
  replace (- 0 ^ 2 / (2 * sg ^ 2)) with 0 by (field; lra). rewrite exp_0.
  split; [| field; lra].
  apply Rmult_le_compat_r.
  - left. apply Rinv_0_lt_compat. by apply Rmult_lt_0_compat.
  - apply Rle_trans with (exp 0); [| rewrite exp_0; lra].
    destruct (Req_dec (ln (x / mu)) 0) as [->|Hne].
    + replace (- 0 ^ 2 / (2 * sg ^ 2)) with 0 by (field; lra). lra.
    + left. apply exp_increasing.
      assert (0 < ln (x / mu) ^ 2)
        by (apply Rdichotomy in Hne as [Hne|Hne]; nra).
      assert (0 < 2 * sg ^ 2) by nra.
      replace (- ln (x / mu) ^ 2 / (2 * sg ^ 2))
        with (- (ln (x / mu) ^ 2 / (2 * sg ^ 2))) by (field; lra).
      apply Ropp_lt_gt_0_contravar. by apply Rdiv_lt_0_compat.
Qed.

Lemma lognorm_log_space_witness :
  0 < 1 ∧ 0 < 2 ∧ 0 < 3
  ∧ ∃ v vm,
      __call__ lib (PNum 3) (LognormPrior (PNum 2) (PNum 1))
      = (LognormPrior (PNum 2) (PNum 1), Ok (PNum v))
      ∧ call_at_mean lib (LognormPrior (PNum 2) (PNum 1))
        = (LognormPrior (PNum 2) (PNum 1), Ok (PNum vm))
      ∧ 3 * v <= 2 * vm
      ∧ 2 * vm = 1 / (1 * sqrt (2 * PI)).
Proof.
  split; [lra | split; [lra | split; [lra |]]].
  apply (lognorm_peaks_at_mean_in_log_space 2 1 3); lra.
Defined.

End RealBins.


(** ** Examples on the reference library *)

Module Uses.
Import RealLib RealFacts.
#[local] Open Scope R_scope.

Lemma lookup_branches_witness :
  functype_of d_gauss = PStr "gauss"
  ∧ "gauss" ∈ by_lookup
  ∧ ∃ p, (create_prior_functor lib d_gauss).2 = Ok p.
Proof.
  assert (Hin : "gauss" ∈ by_lookup) by (unfold by_lookup; repeat constructor).
  split; [reflexivity | split; [exact Hin |]].
  apply (proj1 (lookup_branches_build_the_prior lib d_gauss "gauss"
                  eq_refl Hin)).
  split; by eexists.
Defined.

Lemma norm_takes_mu_and_sigma_only_witness :
  functype_of d_norm_extra = PStr "norm"
  ∧ "norm" ∈ ["norm"; "lognorm"]
  ∧ is_Some (d_norm_extra !! "filename")
  ∧ ∃ why, (create_prior_functor lib d_norm_extra).2 = Err (TypeError why).
Proof.
  assert (Hin : "norm" ∈ ["norm"; "lognorm"]) by repeat constructor.
  assert (Hk : is_Some (d_norm_extra !! "filename")) by (by eexists).
  split; [reflexivity | split; [exact Hin | split; [exact Hk |]]].
  apply (proj1 (proj2 (norm_takes_mu_and_sigma_only lib d_norm_extra "norm"
                         eq_refl Hin))
           "filename" Hk).
  apply (bool_decide_unpack _). vm_compute. exact I.
Defined.

Lemma non_string_functype_witness :
  d_none !! "functype" = Some PNone
  ∧ (∀ s, (PNone : pyval R) ≠ PStr s)
  ∧ create_prior_functor lib d_none
    = (delete "functype" d_none,
       Err (KeyError "Unrecognized prior_functor type None")).
Proof.
  assert (Hns : ∀ s, (PNone : pyval R) ≠ PStr s) by (intros s; discriminate).
  split; [reflexivity | split; [exact Hns |]].
  apply (non_string_functype_raises lib d_none PNone eq_refl Hns).
Defined.


Lemma funcname_of_built_prior_witness :
  ∃ d' p,
    functype_of d_interp = PStr "interp"
    ∧ create_prior_functor lib d_interp = (d', Ok p)
    ∧ funcname p = (p, Ok (PStr "file")).
Proof.
  do 2 eexists. split; [reflexivity |]. split; [reflexivity |].
  apply (proj1 (proj2 (funcname_of_built_prior lib d_interp "interp" _ _
                         eq_refl eq_refl))).
  reflexivity.
Defined.

Lemma bins_depend_on_mean_witness :
  stored_mu (NormPrior (PNum 2) (PNum 1))
  = stored_mu (LognormPrior (PNum 2) (PNum 1))
  ∧ (marginalization_bins lib (NormPrior (PNum 2) (PNum 1))).2
    = (marginalization_bins lib (LognormPrior (PNum 2) (PNum 1))).2.
Proof.
  split; [reflexivity |].
  apply (proj1 (bins_depend_on_mean_and_sigma lib
                  (NormPrior (PNum 2) (PNum 1))
                  (LognormPrior (PNum 2) (PNum 1)) eq_refl)).
Defined.

Lemma FileFuncPrior_is_consistent_witness :
  ∃ table p,
    yaml_load lib (PStr "prior.yaml") = Ok table
    ∧ FileFuncPrior lib (PStr "prior.yaml") = Ok p
    ∧ table_consistent lib p.
Proof.
  do 2 eexists. split; [reflexivity |]. split; [reflexivity |].
  apply (proj1 (FileFuncPrior_is_consistent lib (PStr "prior.yaml") _ _ []
                  eq_refl eq_refl)).
Defined.
End Uses.

(** ** [setup.py] *)

Module SetupFacts.
Import SetupPy.

Lemma split_not_nil (sep : ascii) (s : string) : split sep s ≠ [].
Proof.
  destruct s as [|c s]; cbn; [done |].
  case_decide; [done |]. by destruct (split sep s).
Qed.

(** A piece of a split holds no separator. *)
Lemma split_pieces (sep : ascii) (s : string) :
  Forall (λ w, occurs sep w = false) (split sep s).
Proof.
  induction s as [|c s IH]; cbn.
  - by repeat constructor.
  - case_decide as Hc.
    + by constructor.
    + pose proof (split_not_nil sep s) as Hnil.
      destruct (split sep s) as [|w ws]; [done |].
      apply Forall_cons in IH as [Hw Hws]. constructor; [| done].
      cbn. by rewrite bool_decide_eq_false_2.
Qed.

(** Splitting after a first line. *)
Lemma split_line (l rest : string) :
  occurs newline l = false →
  split newline (l ++ String newline rest) = l :: split newline rest.
Proof.
  induction l as [|c l IH]; cbn; intros Hl.
  - done.
  - apply orb_false_iff in Hl as [Hc Hl].
    apply bool_decide_eq_false in Hc.
    change (split newline (String c (l ++ String newline rest))
            = String c l :: split newline rest).
    cbn [split]. case_decide; [done |]. by rewrite IH.
Qed.

(** X14.  Whatever the text, no entry of the list that [setup.py] makes of
    it is empty and none holds a newline. *)
Theorem nonempty_lines_are_lines (text : string) :
  Forall line (nonempty_lines text).
Proof.
  unfold nonempty_lines, line.
  pose proof (split_pieces newline text) as Hpieces.
  induction Hpieces as [|w ws Hw _ IH]; [constructor |].
  rewrite filter_cons. case_decide; [| done]. by constructor.
Qed.

(** X15.  A text written as lines, each not empty and ended by a newline,
    is taken apart into exactly those lines, in order; [CLASSIFIERS] is
    such a text and gives the eleven classifiers passed to [setup]. *)
Theorem nonempty_lines_unlines (ls : list string) :
  Forall line ls →
  nonempty_lines (unlines ls) = ls
  ∧ unlines classifiers = CLASSIFIERS
  ∧ length classifiers = 11%nat.
Proof.
  intros Hls. split; [| split; reflexivity].
  unfold nonempty_lines.
  induction Hls as [|l ls [Hne Hnl] _ IH]; [reflexivity |].
  cbn [unlines foldr]. fold (unlines ls). rewrite split_line by done.
  rewrite filter_cons, decide_True by done. by rewrite IH.
Qed.

Lemma nonempty_lines_unlines_witness :
  Forall line classifiers
  ∧ nonempty_lines (unlines classifiers) = classifiers.
Proof.
  assert (Hls : Forall line classifiers)
    by (apply (bool_decide_unpack _); vm_compute; exact I).
  split; [exact Hls |].
  apply (proj1 (nonempty_lines_unlines classifiers Hls)).
Defined.
End SetupFacts.
